(** * An 8-bit register machine emulator (cpu.py), embedded and verified

    The emulator is a Python class [CPU] with a flat memory list, a register
    list, a program counter, a flags word and a fetch-decode-execute loop.
    This development embeds the class as a state-and-exception monad over a
    record of its attributes, and proves properties of the instruction
    routines, of the ALU and of the loop body.

    Conventions of the embedding:
    - Python integers are unbounded, so every numeric attribute is a [Z];
      the source never masks a value to eight bits.
    - A Python list indexed by an integer [i] accepts [-len <= i < len]
      (negative indices count from the end) and raises [IndexError]
      otherwise; [py_index] writes this out.
    - [print] calls append one [event] each to the [out] field, which stands
      for the standard output of the process.
    - [sys.exit] raises [SystemExit]; like every other exception it unwinds
      out of [run], which has no handler. *)

From Stdlib Require Import ZArith Lia.
From stdpp Require Import base option list strings gmap.

Local Open Scope Z_scope.

(** ** Machine state *)

(** One [event] per [print] call of the source. *)
Inductive event : Type :=
  | Print_int (v : Z)                       (* print(<integer>) *)
  | Print_unknown_command (IR : Z)          (* print(f"Did not understand that command: {IR}") *)
  | Print_trace_head (pc b0 b1 b2 : Z)      (* print("TRACE: %02X | %02X %02X %02X |" % ..., end='') *)
  | Print_trace_reg (v : Z)                 (* print(" %02X" % self.reg[i], end='') *)
  | Print_None.                             (* print(None), the value trace() returns *)

(** The exceptions the class can raise. *)
Inductive pyexn : Type :=
  | IndexError                              (* list index out of range *)
  | KeyError (key : Z)                      (* binary_operation[IR] *)
  | KeyError_name (key : string)            (* self.instructions[name], math_operation[name] *)
  | TypeError                               (* a None operand used as a list index *)
  | Exception_ (msg : string)               (* raise Exception(msg) *)
  | SystemExit (code : option Z).           (* sys.exit() / sys.exit(n) *)

(** The attributes of a [CPU] object, plus the output channel. *)
Record CPU : Type := mkCPU {
  ram : list Z;
  reg : list Z;
  operand_a : option Z;
  operand_b : option Z;
  PC : Z;
  MAR : option Z;
  MDR : option Z;
  FL : Z;
  out : list event
}.

(** Global constant [SP = 7]: the register used as stack pointer. *)
Definition SP : Z := 7.

(** ** The monad of the methods: state passing with exceptions *)

Inductive outcome (A : Type) : Type :=
  | Normal (a : A) (s : CPU)
  | Raise (e : pyexn) (s : CPU).
Arguments Normal {A} a s.
Arguments Raise {A} e s.

Definition M (A : Type) : Type := CPU -> outcome A.

Definition ret {A} (a : A) : M A := fun s => Normal a s.

Definition bind {A B} (m : M A) (k : A -> M B) : M B :=
  fun s => match m s with
           | Normal a s' => k a s'
           | Raise e s' => Raise e s'
           end.

Definition raise {A} (e : pyexn) : M A := fun s => Raise e s.

Declare Scope cpu_scope.
Delimit Scope cpu_scope with cpu.
Notation "'let*' x ':=' m 'in' k" := (bind m (fun x => k))
  (at level 10, x name, m at level 100, k at level 200) : cpu_scope.
Notation "'do' m 'then' k" := (bind m (fun _ => k))
  (at level 10, m at level 100, k at level 200) : cpu_scope.
Local Open Scope cpu_scope.

(** Attribute reads and writes. *)
Definition get {A} (f : CPU -> A) : M A := fun s => Normal (f s) s.

Definition set_ram (v : list Z) : M unit := fun s =>
  Normal tt (mkCPU v (reg s) (operand_a s) (operand_b s) (PC s) (MAR s) (MDR s) (FL s) (out s)).
Definition set_reg (v : list Z) : M unit := fun s =>
  Normal tt (mkCPU (ram s) v (operand_a s) (operand_b s) (PC s) (MAR s) (MDR s) (FL s) (out s)).
Definition set_operand_a (v : Z) : M unit := fun s =>
  Normal tt (mkCPU (ram s) (reg s) (Some v) (operand_b s) (PC s) (MAR s) (MDR s) (FL s) (out s)).
Definition set_operand_b (v : Z) : M unit := fun s =>
  Normal tt (mkCPU (ram s) (reg s) (operand_a s) (Some v) (PC s) (MAR s) (MDR s) (FL s) (out s)).
Definition set_PC (v : Z) : M unit := fun s =>
  Normal tt (mkCPU (ram s) (reg s) (operand_a s) (operand_b s) v (MAR s) (MDR s) (FL s) (out s)).
Definition set_MAR (v : Z) : M unit := fun s =>
  Normal tt (mkCPU (ram s) (reg s) (operand_a s) (operand_b s) (PC s) (Some v) (MDR s) (FL s) (out s)).
Definition set_MDR (v : Z) : M unit := fun s =>
  Normal tt (mkCPU (ram s) (reg s) (operand_a s) (operand_b s) (PC s) (MAR s) (Some v) (FL s) (out s)).
Definition set_FL (v : Z) : M unit := fun s =>
  Normal tt (mkCPU (ram s) (reg s) (operand_a s) (operand_b s) (PC s) (MAR s) (MDR s) v (out s)).

(** [print(x)]: one more event on the output channel. *)
Definition print (e : event) : M unit := fun s =>
  Normal tt (mkCPU (ram s) (reg s) (operand_a s) (operand_b s) (PC s) (MAR s) (MDR s) (FL s)
                   (out s ++ [e])).

(** [sys.exit(code)]. *)
Definition sys_exit {A} (code : option Z) : M A := raise (SystemExit code).

(** ** Python list indexing *)

(** The slot a Python list of length [len] uses for index [i]. *)
Definition py_index (len i : Z) : option nat :=
  if bool_decide (0 <= i < len) then Some (Z.to_nat i)
  else if bool_decide (- len <= i < 0) then Some (Z.to_nat (i + len))
  else None.

(** [l[i]] as an expression. *)
Definition py_getitem (l : list Z) (i : Z) : option Z :=
  n ← py_index (Z.of_nat (length l)) i; l !! n.

(** [l[i] = v] as a statement; [None] stands for IndexError. *)
Definition py_setitem (l : list Z) (i : Z) (v : Z) : option (list Z) :=
  n ← py_index (Z.of_nat (length l)) i; Some (<[n:=v]> l).

(** [self.reg[i]] *)
Definition reg_get (i : Z) : M Z :=
  let* r := get reg in
  match py_getitem r i with
  | Some v => ret v
  | None => raise IndexError
  end.

(** [self.reg[i] = v] *)
Definition reg_set (i v : Z) : M unit :=
  let* r := get reg in
  match py_setitem r i v with
  | Some r' => set_reg r'
  | None => raise IndexError
  end.

(** [self.ram[i]] *)
Definition ram_get (i : Z) : M Z :=
  let* m := get ram in
  match py_getitem m i with
  | Some v => ret v
  | None => raise IndexError
  end.

(** [self.ram[i] = v] *)
Definition ram_set (i v : Z) : M unit :=
  let* m := get ram in
  match py_setitem m i v with
  | Some m' => set_ram m'
  | None => raise IndexError
  end.

(** An operand attribute used where an integer is needed: [None] (the value
    before the first fetch) is not a list index. *)
Definition get_operand (f : CPU -> option Z) : M Z :=
  let* o := get f in
  match o with
  | Some v => ret v
  | None => raise TypeError
  end.

(** ** Operation tables *)

(** The table is written with binary literals in the source; each entry
    keeps its bit pattern in the comment. *)
Definition binary_operation : gmap Z string :=
  list_to_map
    [ (1, "HLT");      (* 0b00000001 *)
      (130, "LDI");    (* 0b10000010 *)
      (71, "PRN");     (* 0b01000111 *)
      (69, "PUSH");    (* 0b01000101 *)
      (70, "POP");     (* 0b01000110 *)
      (80, "CALL");    (* 0b01010000 *)
      (17, "RET");     (* 0b00010001 *)
      (84, "JMP");     (* 0b01010100 *)
      (85, "JEQ");     (* 0b01010101 *)
      (86, "JNE") ].   (* 0b01010110 *)

Definition math_operation : gmap string Z :=
  list_to_map
    [ ("ADD", 160);    (* 0b10100000 *)
      ("SUB", 161);    (* 0b10100001 *)
      ("MUL", 162);    (* 0b10100010 *)
      ("CMP", 167) ].  (* 0b10100111 *)

(** [math_operation[name]] *)
Definition math_op (name : string) : M Z :=
  match math_operation !! name with
  | Some v => ret v
  | None => raise (KeyError_name name)
  end.

(** ** Construction *)

(** [CPU.__init__]: 256 zeroed memory cells, 8 zeroed registers with
    [reg[SP] = 0xF4], no operands yet, [PC = 0], [FL = 0]. *)
Definition CPU__init__ : CPU :=
  {| ram := replicate 256 0;
     reg := <[Z.to_nat SP := 0xF4]> (replicate 8 0);
     operand_a := None;
     operand_b := None;
     PC := 0;
     MAR := None;
     MDR := None;
     FL := 0;
     out := [] |}.

(** ** Instruction routines (the branch table's methods) *)

Definition CALL : M unit :=
  let* sp := reg_get SP in
  do reg_set SP (sp - 1) then                     (* self.reg[SP] -= 1 *)
  let* pc := get PC in
  let instruction_address := pc + 2 in
  let* sp' := reg_get SP in
  do ram_set sp' instruction_address then         (* self.ram[self.reg[SP]] = ... *)
  let* register := get_operand operand_a in
  let* target := reg_get register in
  set_PC target.                                  (* self.PC = self.reg[register] *)

Definition RET : M unit :=
  let* sp := reg_get SP in
  let* v := ram_get sp in
  do set_PC v then                                (* self.PC = self.ram[self.reg[SP]] *)
  let* sp' := reg_get SP in
  reg_set SP (sp' + 1).                           (* self.reg[SP] += 1 *)

Definition JMP : M unit :=
  let* a := get_operand operand_a in
  let* address := reg_get a in
  set_PC address.

Definition JEQ : M unit :=
  let* a := get_operand operand_a in
  let* address := reg_get a in
  let* fl := get FL in
  if bool_decide (fl = 1) then set_PC address
  else let* pc := get PC in set_PC (pc + 2).

Definition JNE : M unit :=
  let* a := get_operand operand_a in
  let* address := reg_get a in
  let* fl := get FL in
  if bool_decide (fl = 0) then set_PC address
  else let* pc := get PC in set_PC (pc + 2).

Definition HALT : M unit := sys_exit None.

(** [self.reg[self.operand_a] = self.operand_b].  Registers are integers in
    this embedding, so an [operand_b] that is still [None] is refused here;
    [run] assigns both operands from memory before it calls any routine. *)
Definition LOAD : M unit :=
  let* b := get_operand operand_b in
  let* a := get_operand operand_a in
  reg_set a b.

Definition PRINT : M unit :=
  let* a := get_operand operand_a in
  let* v := reg_get a in
  print (Print_int v).

Definition PUSH : M unit :=
  let* sp := reg_get SP in
  do reg_set SP (sp - 1) then                     (* self.reg[SP] -= 1 *)
  let* a := get_operand operand_a in
  let* value := reg_get a in
  let* sp' := reg_get SP in
  ram_set sp' value.                              (* self.ram[self.reg[SP]] = value *)

Definition POP : M unit :=
  let* sp := reg_get SP in
  let* value := ram_get sp in
  let* register := get_operand operand_a in
  do reg_set register value then
  let* sp' := reg_get SP in
  reg_set SP (sp' + 1).                           (* self.reg[SP] += 1 *)

(** ** Memory accessors *)

Definition ram_read (address : Z) : M Z :=
  do set_MAR address then
  let* v := ram_get address in
  do set_MDR v then
  ram_get address.

Definition ram_write (value address : Z) : M unit :=
  do set_MAR address then
  do set_MDR value then
  ram_set address value.

(** ** The ALU *)

Definition ALU (op reg_a reg_b : Z) : M unit :=
  let* add := math_op "ADD" in
  if bool_decide (op = add) then
    let* x := reg_get reg_a in
    let* y := reg_get reg_b in
    reg_set reg_a (x + y)                         (* self.reg[reg_a] += self.reg[reg_b] *)
  else
  let* sub := math_op "SUB" in
  if bool_decide (op = sub) then
    let* x := reg_get reg_a in
    let* y := reg_get reg_b in
    reg_set reg_a (x - y)
  else
  let* mul := math_op "MUL" in
  if bool_decide (op = mul) then
    let* x := reg_get reg_a in
    let* y := reg_get reg_b in
    reg_set reg_a (x * y)
  else
  let* cmp := math_op "CMP" in
  if bool_decide (op = cmp) then
    let* a := get_operand operand_a in
    let* valueA := reg_get a in
    let* b := get_operand operand_b in
    let* valueB := reg_get b in
    do (if bool_decide (valueA = valueB) then set_FL 1 else ret tt) then
    do (if bool_decide (valueA < valueB) then set_FL 4 else ret tt) then
    do (if bool_decide (valueA > valueB) then set_FL 2 else ret tt) then
    let* fl := get FL in
    print (Print_int fl)
  else
    raise (Exception_ "Unsupported ALU operation").

(** ** Tracing *)

(** The loop [for i in range(8): print(" %02X" % self.reg[i], end='')]. *)
Fixpoint trace_regs (idxs : list Z) : M unit :=
  match idxs with
  | [] => ret tt
  | i :: rest =>
      let* v := reg_get i in
      do print (Print_trace_reg v) then
      trace_regs rest
  end.

Definition trace : M unit :=
  let* pc := get PC in
  let* b0 := ram_read pc in
  let* pc1 := get PC in
  let* b1 := ram_read (pc1 + 1) in
  let* pc2 := get PC in
  let* b2 := ram_read (pc2 + 2) in
  do print (Print_trace_head pc b0 b1 b2) then
  trace_regs (seqZ 0 8).

(** ** The execution loop *)

(** The routing expression of [run]: [(IR << 2) % 255 >> 7].  In Python [%]
    binds tighter than the shifts, so this is [((IR << 2) % 255) >> 7]. *)
Definition alu_test (IR : Z) : Z := Z.shiftr (Z.shiftl IR 2 mod 255) 7.

(** The expression of [move_PC]: [(IR << 3) % 255 >> 7]. *)
Definition sets_pc_test (IR : Z) : Z := Z.shiftr (Z.shiftl IR 3 mod 255) 7.

Definition move_PC (IR : Z) : M unit :=
  if bool_decide (sets_pc_test IR <> 1) then
    let* pc := get PC in
    set_PC (pc + (Z.shiftr IR 6 + 1))
  else ret tt.

(** The branch table built in [__init__]. *)
Definition instructions : gmap string (M unit) :=
  list_to_map
    [ ("HLT", HALT); ("LDI", LOAD); ("PRN", PRINT); ("PUSH", PUSH);
      ("POP", POP); ("CALL", CALL); ("RET", RET); ("JMP", JMP);
      ("JEQ", JEQ); ("JNE", JNE) ].

(** [self.instructions[binary_operation[IR]]()] *)
Definition dispatch (IR : Z) : M unit :=
  match binary_operation !! IR with
  | None => raise (KeyError IR)
  | Some name =>
      match instructions !! name with
      | None => raise (KeyError_name name)
      | Some routine => routine
      end
  end.

(** The body of [while True] in [run], first half: the three reads that
    start every cycle.  The value returned is the local variable [IR]. *)
Definition fetch : M Z :=
  let* pc := get PC in
  let* IR := ram_read pc in
  let* pc1 := get PC in
  let* a := ram_read (pc1 + 1) in
  do set_operand_a a then
  let* pc2 := get PC in
  let* b := ram_read (pc2 + 2) in
  do set_operand_b b then
  ret IR.

(** Second half: the [if] / [elif] / [else] on the routing expression. *)
Definition execute (IR : Z) : M unit :=
  if bool_decide (alu_test IR = 1) then
    let* x := get_operand operand_a in
    let* y := get_operand operand_b in
    do ALU IR x y then
    move_PC IR
  else if bool_decide (alu_test IR = 0) then
    do dispatch IR then
    move_PC IR
  else
    do print (Print_unknown_command IR) then
    do trace then
    do print Print_None then
    sys_exit (Some 1).

(** One pass through the body of [while True]. *)
Definition cycle : M unit :=
  let* IR := fetch in
  execute IR.

(** [run]: the loop has no exit of its own; it ends when a cycle raises
    ([SystemExit] included).  [None] means the fuel ran out first. *)
Fixpoint run (fuel : nat) (s : CPU) : option (pyexn * CPU) :=
  match fuel with
  | O => None
  | S fuel' =>
      match cycle s with
      | Normal _ s' => run fuel' s'
      | Raise e s' => Some (e, s')
      end
  end.

(** ** Programs in memory *)

(** Memory holding [prog] from address 0, zero elsewhere (what [load] leaves
    for a program of at most 256 bytes). *)
Definition with_program (prog : list Z) (s : CPU) : CPU :=
  mkCPU (prog ++ replicate (256 - length prog) 0) (reg s) (operand_a s) (operand_b s)
        (PC s) (MAR s) (MDR s) (FL s) (out s).

(** ** Well-formed states *)

(** The two lists never change length: every write is an item assignment. *)
Definition wf (s : CPU) : Prop :=
  length (ram s) = 256%nat /\ length (reg s) = 8%nat.

(** An action that leaves both list lengths as they were, whether it returns
    or raises. *)
Definition keeps_lengths {A} (m : M A) : Prop :=
  forall s,
    match m s with
    | Normal _ s' | Raise _ s' =>
        length (ram s') = length (ram s) /\ length (reg s') = length (reg s)
    end.

(** ** The tables and the flag tests, as the specification words them *)

(** The keys of [binary_operation]. *)
Definition opcode_keys : list Z := [1; 130; 71; 69; 70; 80; 17; 84; 85; 86].

(** Bit 5 and bit 4 of the opcode as the specification words them: an exact
    extraction [(value >> bit) & 1].  These two definitions follow the
    specification, to be compared with [alu_test] and [sets_pc_test], which
    follow the source. *)
Definition alu_flag_spec (IR : Z) : Z := Z.land (Z.shiftr IR 5) 1.
Definition pc_flag_spec (IR : Z) : Z := Z.land (Z.shiftr IR 4) 1.

(** The flags value the specification asks of a comparison: Equal (bit 0)
    when the values are equal, else Less-than (bit 2), else Greater-than
    (bit 1); the source's comment gives the layout as [0000LGE]. *)
Definition flags_of_comparison (x y : Z) : Z :=
  if bool_decide (x = y) then 1 else if bool_decide (x < y) then 4 else 2.

(** ** Concrete states and programs used in examples *)

(** A state used to instantiate the statements below: register 0 holds 5,
    register 1 holds 9, the stack pointer is at its initial 0xF4, both
    operands are loaded and PC is 10. *)
Definition sample_state : CPU :=
  mkCPU (replicate 256 0) [5; 9; 0; 0; 0; 0; 0; 244] (Some 0) (Some 1) 10 None None 0 [].

(** A register file with 255 in register 0 and 1 in register 1. *)
Definition state_255_1 : CPU :=
  mkCPU (replicate 256 0) [255; 1; 0; 0; 0; 0; 0; 244] (Some 0) (Some 1) 0 None None 0 [].

(** A state whose flags word is all ones before the comparison. *)
Definition state_flags_dirty : CPU :=
  mkCPU (replicate 256 0) [5; 9; 0; 0; 0; 0; 0; 244] (Some 0) (Some 1) 0 None None 255 [].

(** CMP R0,R1 at address 0 of an otherwise empty memory. *)
Definition state_cmp : CPU :=
  mkCPU (167 :: 0 :: 1 :: replicate 253 0) [5; 9; 0; 0; 0; 0; 0; 244] None None 0 None None 0 [].

(** The state after a CMP that found its first value smaller: the flags
    word is 4.  Register 0 holds the jump target 20, PC is 10. *)
Definition state_less : CPU :=
  mkCPU (replicate 256 0) [20; 0; 0; 0; 0; 0; 0; 244] (Some 0) (Some 0) 10 None None 4 [].

(** LDI R0,1; LDI R1,2; LDI R2,16; CMP R0,R1; JNE R2; PRN R0; HLT: the
    jump target 16 is the HLT, so a JNE that jumps skips the PRN. *)
Definition prog_cmp_jne : list Z :=
  [130; 0; 1; 130; 1; 2; 130; 2; 16; 167; 0; 1; 86; 2; 71; 0; 1].

(** A well-formed state with PC at 254. *)
Definition state_pc_254 : CPU :=
  mkCPU (replicate 256 0) [0; 0; 0; 0; 0; 0; 0; 244] None None 254 None None 0 [].

(** CMP R0,R0; HLT: a program with no PRN at all. *)
Definition prog_cmp_only : list Z := [167; 0; 0; 1].

(** LDI R0,2; LDI R1,3; MUL R0,R1; PRN R0; HLT. *)
Definition prog_mult : list Z := [130; 0; 2; 130; 1; 3; 162; 0; 1; 71; 0; 1].

(** LDI R0,8; PRN R0; HLT. *)
Definition prog_print8 : list Z := [130; 0; 8; 71; 0; 1].

(** LDI R0,255; LDI R1,1; ADD R0,R1; PRN R0; HLT. *)
Definition prog_add_255_1 : list Z := [130; 0; 255; 130; 1; 1; 160; 0; 1; 71; 0; 1].

(** What a run shows from outside: how it ended and what it printed. *)
Definition observe (r : option (pyexn * CPU)) : option (pyexn * list event) :=
  (λ r, (r.1, out r.2)) <$> r.

(** ** Observing outcomes *)

(** The state an action leaves, whether it returned or raised. *)
Definition final {A} (o : outcome A) : CPU :=
  match o with
  | Normal _ s => s
  | Raise _ s => s
  end.

(** [n] passes through the loop body; stops at the first cycle that raises. *)
Fixpoint cycles (n : nat) (s : CPU) : outcome unit :=
  match n with
  | O => Normal tt s
  | S n' =>
      match cycle s with
      | Normal _ s' => cycles n' s'
      | Raise e s' => Raise e s'
      end
  end.

(** An action that keeps the invariant [P] when it returns, relates the
    state it leaves to the state it started from by [R] in both cases, and
    raises only exceptions in [E]. *)
Definition respects {A} (P : CPU -> Prop) (R : CPU -> CPU -> Prop) (E : pyexn -> Prop)
    (m : M A) : Prop :=
  forall s, P s ->
    match m s with
    | Normal _ s' => P s' /\ R s s'
    | Raise e s' => R s s' /\ E e
    end.

(** Both operand attributes hold integers (true from the first fetch on). *)
Definition operands_loaded (s : CPU) : Prop :=
  is_Some (operand_a s) /\ is_Some (operand_b s).

(** What the three reads of the fetch leave alone. *)
Definition same_core (s s' : CPU) : Prop :=
  ram s' = ram s /\ reg s' = reg s /\ PC s' = PC s /\ FL s' = FL s /\ out s' = out s.

(** PRN R0 at address 0, register 0 holding 5. *)
Definition state_prn : CPU :=
  mkCPU (71 :: 0 :: replicate 254 0) [5; 9; 0; 0; 0; 0; 0; 244] None None 0 None None 0 [].


(** The opcodes on which a cycle can return normally: the branch table
    without HLT, and the four ALU operations. *)
Definition returning_opcodes : list Z :=
  [130; 71; 69; 70; 80; 17; 84; 85; 86; 160; 161; 162; 167].

(** The five opcodes whose routine assigns PC itself. *)
Definition jump_opcodes : list Z := [80; 17; 84; 85; 86].

(** JNE R0 at address 0, after a comparison that left Greater-than. *)
Definition state_jne_greater : CPU :=
  mkCPU (86 :: 0 :: replicate 254 0) [20; 9; 0; 0; 0; 0; 0; 244] None None 0 None None 2 [].

(** HLT at address 0 of an otherwise empty memory. *)
Definition state_hlt : CPU :=
  mkCPU (1 :: replicate 255 0) [5; 9; 0; 0; 0; 0; 0; 244] None None 0 None None 0 [].

(** JMP R0 at address 0, register 0 holding 20. *)
Definition state_jmp : CPU :=
  mkCPU (84 :: 0 :: replicate 254 0) [20; 9; 0; 0; 0; 0; 0; 244] None None 0 None None 0 [].

(** A stack pointer that has run off the low end: its decrement, -257, is
    no index of the 256-cell memory. *)
Definition state_sp_low : CPU :=
  mkCPU (replicate 256 0) [5; 9; 0; 0; 0; 0; 0; -256] (Some 0) (Some 1) 10 None None 0 [].

(** POP into register 7, the stack pointer itself; the top of stack holds 42. *)
Definition state_pop_sp : CPU :=
  mkCPU (<[244%nat := 42]> (replicate 256 0)) [5; 9; 0; 0; 0; 0; 0; 244]
        (Some 7) (Some 0) 10 None None 0 [].


(** CMP R0,R1; JEQ R2 at address 0; registers 0 and 1 hold 9 and 9, register
    2 holds the target 40. *)
Definition state_cmp_jeq : CPU :=
  mkCPU (167 :: 0 :: 1 :: 85 :: 2 :: replicate 251 0) [9; 9; 40; 0; 0; 0; 0; 244]
        None None 0 None None 0 [].

(** PUSH R0; POP R1 at address 0. *)
Definition state_push_pop : CPU :=
  mkCPU (69 :: 0 :: 70 :: 1 :: replicate 252 0) [5; 9; 0; 0; 0; 0; 0; 244]
        None None 0 None None 0 [].

(** ** Loading a program *)

(** How [load] can end: it returns, or it prints a message and exits with a
    status, or an exception leaves it ([ValueError] from [int], [IndexError]
    from the memory list, any error of [open] other than a missing file). *)
Inductive load_exn : Type := Load_ValueError | Load_IndexError | Load_OSError.

Inductive load_result : Type :=
  | Load_ok (s : CPU)
  | Load_exit (message : string) (status : Z) (s : CPU)
  | Load_error (e : load_exn) (s : CPU).

(** What [open(filename)] gives: the lines of the file, [FileNotFoundError],
    or another error. *)
Inductive open_result : Type :=
  | Opened (lines : list string)
  | File_not_found
  | Open_failed.

Section Load.

(** The string operations of the Python library that [load] calls, left
    abstract: [str.strip], the first piece of [str.split("#")], and
    [int(value, 2)] with [None] for [ValueError]. *)
Variable strip : string -> string.
Variable before_hash : string -> string.
Variable int2 : string -> option Z.

(** The body of [for instruction in program], with the counter [address]. *)
Fixpoint load_loop (lines : list string) (address : Z) (s : CPU) : load_result :=
  match lines with
  | [] => Load_ok s
  | instruction :: rest =>
      let value := strip (before_hash (strip instruction)) in
      if bool_decide (value = EmptyString) then load_loop rest address s
      else
        match int2 value with
        | None => Load_error Load_ValueError s
        | Some num =>
            match ram_set address num s with
            | Normal _ s' => load_loop rest (address + 1) s'
            | Raise _ s' => Load_error Load_IndexError s'
            end
        end
  end.

(** [load], given [sys.argv] and the file system as [open_file]. *)
Definition load (argv : list string) (open_file : string -> open_result) (s : CPU)
    : load_result :=
  if bool_decide (length argv <> 2%nat) then Load_exit "ERROR: Must have file name" 1 s
  else
    match argv !! 1%nat with
    | None => Load_error Load_IndexError s
    | Some filename =>
        match open_file filename with
        | Opened lines => load_loop lines 0 s
        | File_not_found => Load_exit "File not found" 2 s
        | Open_failed => Load_error Load_OSError s
        end
    end.

(** The numbers a file holds, line by line, blank and comment-only lines
    skipped; [None] when some line is not a number. *)
Fixpoint values_of (lines : list string) : option (list Z) :=
  match lines with
  | [] => Some []
  | instruction :: rest =>
      let value := strip (before_hash (strip instruction)) in
      if bool_decide (value = EmptyString) then values_of rest
      else
        match int2 value with
        | None => None
        | Some num => cons num <$> values_of rest
        end
  end.

End Load.

(** A state with given memory and nothing else of interest. *)
Definition with_ram (m : list Z) (s : CPU) : CPU :=
  mkCPU m (reg s) (operand_a s) (operand_b s) (PC s) (MAR s) (MDR s) (FL s) (out s).

(** Stand-ins for the library functions on lines that need no stripping:
    the text before the first [#], and the value of a string of binary
    digits. *)
Fixpoint demo_before_hash (l : string) : string :=
  match l with
  | EmptyString => EmptyString
  | String c rest => if bool_decide (String c EmptyString = "#") then EmptyString else String c (demo_before_hash rest)
  end.

Fixpoint demo_bits (acc : Z) (l : string) : option Z :=
  match l with
  | EmptyString => Some acc
  | String c rest =>
      if bool_decide (String c EmptyString = "0") then demo_bits (2 * acc) rest
      else if bool_decide (String c EmptyString = "1") then demo_bits (2 * acc + 1) rest
      else None
  end.

Definition demo_int2 (l : string) : option Z :=
  match l with
  | EmptyString => None
  | _ => demo_bits 0 l
  end.

(** A three-line file: LDI's opcode with a comment, a comment-only line, and
    a zero. *)
Definition demo_file : list string := ["10000010#LDI"; "#operands"; "00000000"].

(** A machine with a two-cell memory, to show a file that is too long. *)
Definition state_two_cells : CPU :=
  mkCPU [7; 7] [0; 0; 0; 0; 0; 0; 0; 244] None None 0 None None 0 [].

(** A file with three numbers, and one whose second line is no number. *)
Definition demo_file_long : list string := ["1"; "10"; "11"].
Definition demo_file_bad : list string := ["1"; "2"; "11"].

(** * The embedding on whole programs *)

(** The two end-to-end scenarios of the specification: the multiplication
    program prints 6 and exits cleanly, and LDI then PRN gives back 8. *)
Example run_mult :
  observe (run 10 (with_program prog_mult CPU__init__))
  = Some (SystemExit None, [Print_int 6]).
Proof. vm_compute. reflexivity. Qed.

Example run_print8 :
  observe (run 10 (with_program prog_print8 CPU__init__))
  = Some (SystemExit None, [Print_int 8]).
Proof. vm_compute. reflexivity. Qed.

(** * Basic lemmas *)

Section Indexing.

Lemma py_index_nonneg len i :
  0 <= i < len -> py_index len i = Some (Z.to_nat i).
Proof. intros H. unfold py_index. rewrite bool_decide_eq_true_2; auto. Qed.

Lemma py_index_neg len i :
  - len <= i < 0 -> py_index len i = Some (Z.to_nat (i + len)).
Proof.
  intros H. unfold py_index.
  rewrite bool_decide_eq_false_2 by lia.
  rewrite bool_decide_eq_true_2; auto.
Qed.

Lemma py_index_None len i :
  py_index len i = None <-> ~ (- len <= i < len).
Proof.
  unfold py_index. repeat case_bool_decide; split; try discriminate; try lia.
  all: intros Hn; first [reflexivity | exfalso; lia].
Qed.

Lemma py_index_Some len i n :
  py_index len i = Some n -> - len <= i < len /\ (Z.of_nat n < len) /\ n = Z.to_nat (i mod len).
Proof.
  unfold py_index. repeat case_bool_decide; intros [= <-].
  - rewrite Z.mod_small by lia. lia.
  - replace (i mod len) with (i + len); [lia|].
    apply Z.mod_unique with (q := -1); lia.
Qed.

Lemma py_index_in_range len i :
  - len <= i < len -> py_index len i = Some (Z.to_nat (i mod len)).
Proof.
  intros H. destruct (py_index len i) as [n|] eqn:E.
  - apply py_index_Some in E. f_equal. tauto.
  - apply py_index_None in E. tauto.
Qed.

Lemma py_getitem_is_Some (l : list Z) i :
  - Z.of_nat (length l) <= i < Z.of_nat (length l) <-> is_Some (py_getitem l i).
Proof.
  unfold py_getitem. split.
  - intros H. rewrite py_index_in_range by done. cbn.
    apply lookup_lt_is_Some.
    pose proof (Z.mod_pos_bound i (Z.of_nat (length l))). lia.
  - intros [v Hv]. destruct (py_index _ i) as [n|] eqn:E; [|done].
    apply py_index_Some in E. tauto.
Qed.

Lemma py_getitem_None (l : list Z) i :
  py_getitem l i = None <-> ~ (- Z.of_nat (length l) <= i < Z.of_nat (length l)).
Proof.
  rewrite py_getitem_is_Some. rewrite eq_None_not_Some. tauto.
Qed.

Lemma py_setitem_getitem (l : list Z) i v l' :
  py_setitem l i v = Some l' -> py_getitem l' i = Some v /\ length l' = length l.
Proof.
  unfold py_setitem, py_getitem.
  destruct (py_index _ i) as [n|] eqn:E; [|done]. cbn. intros [= <-].
  rewrite length_insert, E. cbn. split; [|done].
  apply list_lookup_insert_eq. apply py_index_Some in E. lia.
Qed.

Lemma py_setitem_is_Some (l : list Z) i v :
  - Z.of_nat (length l) <= i < Z.of_nat (length l) -> is_Some (py_setitem l i v).
Proof.
  intros H. unfold py_setitem. rewrite py_index_in_range by done. cbn. eauto.
Qed.

End Indexing.

Section Monad.

Lemma bind_Normal {A B} (m : M A) (k : A -> M B) s a s' :
  m s = Normal a s' -> bind m k s = k a s'.
Proof. unfold bind. intros ->. reflexivity. Qed.

Lemma bind_Raise {A B} (m : M A) (k : A -> M B) s e s' :
  m s = Raise e s' -> bind m k s = Raise e s'.
Proof. unfold bind. intros ->. reflexivity. Qed.

Lemma reg_get_ok s i v :
  py_getitem (reg s) i = Some v -> reg_get i s = Normal v s.
Proof. unfold reg_get, bind, get. intros ->. reflexivity. Qed.

Lemma reg_get_fail s i :
  py_getitem (reg s) i = None -> reg_get i s = Raise IndexError s.
Proof. unfold reg_get, bind, get. intros ->. reflexivity. Qed.

Lemma ram_get_ok s i v :
  py_getitem (ram s) i = Some v -> ram_get i s = Normal v s.
Proof. unfold ram_get, bind, get. intros ->. reflexivity. Qed.

Lemma ram_get_fail s i :
  py_getitem (ram s) i = None -> ram_get i s = Raise IndexError s.
Proof. unfold ram_get, bind, get. intros ->. reflexivity. Qed.

Lemma reg_set_ok s i v l' :
  py_setitem (reg s) i v = Some l' ->
  reg_set i v s =
  Normal tt (mkCPU (ram s) l' (operand_a s) (operand_b s) (PC s) (MAR s) (MDR s) (FL s) (out s)).
Proof. unfold reg_set, bind, get. intros ->. reflexivity. Qed.

Lemma ram_set_ok s i v l' :
  py_setitem (ram s) i v = Some l' ->
  ram_set i v s =
  Normal tt (mkCPU l' (reg s) (operand_a s) (operand_b s) (PC s) (MAR s) (MDR s) (FL s) (out s)).
Proof. unfold ram_set, bind, get. intros ->. reflexivity. Qed.

Lemma get_operand_ok (f : CPU -> option Z) s v :
  f s = Some v -> get_operand f s = Normal v s.
Proof. unfold get_operand, bind, get. intros ->. reflexivity. Qed.

End Monad.

(** Rewriting a routine step by step: the head action of a [bind] is
    replaced by its value once a side condition gives it. *)
Ltac step_with lem :=
  erewrite bind_Normal by (apply lem; cbn; first [eassumption | reflexivity]); cbn.

Section IndexingMore.

Lemma py_setitem_id (l : list Z) i v :
  py_getitem l i = Some v -> py_setitem l i v = Some l.
Proof.
  unfold py_getitem, py_setitem.
  destruct (py_index _ i) as [n|]; [|done]. cbn. intros H.
  by rewrite list_insert_id.
Qed.

Lemma py_setitem_setitem (l : list Z) i v w l' :
  py_setitem l i v = Some l' -> py_setitem l' i w = py_setitem l i w.
Proof.
  unfold py_setitem.
  destruct (py_index _ i) as [n|] eqn:E; [|done]. cbn. intros [= <-].
  rewrite length_insert, E. cbn. by rewrite list_insert_insert_eq.
Qed.

(** Two indices that name different slots do not interfere. *)
Lemma py_setitem_getitem_other (l : list Z) i j v l' :
  py_setitem l i v = Some l' ->
  py_index (Z.of_nat (length l)) i <> py_index (Z.of_nat (length l)) j ->
  py_getitem l' j = py_getitem l j.
Proof.
  unfold py_setitem, py_getitem.
  destruct (py_index _ i) as [n|] eqn:E; [|done]. cbn. intros [= <-] Hne.
  rewrite length_insert.
  destruct (py_index _ j) as [m|] eqn:E'; [|done]. cbn.
  apply list_lookup_insert_ne. congruence.
Qed.

End IndexingMore.

(** * The stack routines, step by step *)

Section StackRoutines.

Lemma PUSH_ok s a sp r1 value m1 :
  operand_a s = Some a ->
  py_getitem (reg s) SP = Some sp ->
  py_setitem (reg s) SP (sp - 1) = Some r1 ->
  py_getitem r1 a = Some value ->
  py_setitem (ram s) (sp - 1) value = Some m1 ->
  PUSH s =
  Normal tt (mkCPU m1 r1 (operand_a s) (operand_b s) (PC s) (MAR s) (MDR s) (FL s) (out s)).
Proof.
  intros Ha Hsp Hr1 Hv Hm1.
  pose proof (py_setitem_getitem _ _ _ _ Hr1) as [Hsp1 _].
  unfold PUSH.
  step_with reg_get_ok. step_with reg_set_ok. step_with get_operand_ok.
  step_with reg_get_ok. step_with reg_get_ok.
  rewrite Hm1. reflexivity.
Qed.

Lemma POP_ok s a sp value r1 sp1 r2 :
  operand_a s = Some a ->
  py_getitem (reg s) SP = Some sp ->
  py_getitem (ram s) sp = Some value ->
  py_setitem (reg s) a value = Some r1 ->
  py_getitem r1 SP = Some sp1 ->
  py_setitem r1 SP (sp1 + 1) = Some r2 ->
  POP s =
  Normal tt (mkCPU (ram s) r2 (operand_a s) (operand_b s) (PC s) (MAR s) (MDR s) (FL s) (out s)).
Proof.
  intros Ha Hsp Hv Hr1 Hsp1 Hr2.
  unfold POP.
  step_with reg_get_ok. step_with ram_get_ok. step_with get_operand_ok.
  step_with reg_set_ok. step_with reg_get_ok.
  rewrite Hr2. reflexivity.
Qed.

Lemma CALL_ok s a sp r1 m1 target :
  operand_a s = Some a ->
  py_getitem (reg s) SP = Some sp ->
  py_setitem (reg s) SP (sp - 1) = Some r1 ->
  py_setitem (ram s) (sp - 1) (PC s + 2) = Some m1 ->
  py_getitem r1 a = Some target ->
  CALL s =
  Normal tt (mkCPU m1 r1 (operand_a s) (operand_b s) target (MAR s) (MDR s) (FL s) (out s)).
Proof.
  intros Ha Hsp Hr1 Hm1 Ht.
  pose proof (py_setitem_getitem _ _ _ _ Hr1) as [Hsp1 _].
  unfold CALL.
  step_with reg_get_ok. step_with reg_set_ok.
  step_with reg_get_ok. step_with ram_set_ok. step_with get_operand_ok.
  step_with reg_get_ok.
  reflexivity.
Qed.

Lemma RET_ok s sp v r1 :
  py_getitem (reg s) SP = Some sp ->
  py_getitem (ram s) sp = Some v ->
  py_setitem (reg s) SP (sp + 1) = Some r1 ->
  RET s =
  Normal tt (mkCPU (ram s) r1 (operand_a s) (operand_b s) v (MAR s) (MDR s) (FL s) (out s)).
Proof.
  intros Hsp Hv Hr1.
  unfold RET.
  step_with reg_get_ok. step_with ram_get_ok. step_with reg_get_ok.
  rewrite Hr1. reflexivity.
Qed.

End StackRoutines.

(** * The tables, entry by entry *)

Section Tables.

Lemma math_operation_ADD : math_operation !! "ADD" = Some 160.
Proof. vm_compute. reflexivity. Qed.
Lemma math_operation_SUB : math_operation !! "SUB" = Some 161.
Proof. vm_compute. reflexivity. Qed.
Lemma math_operation_MUL : math_operation !! "MUL" = Some 162.
Proof. vm_compute. reflexivity. Qed.
Lemma math_operation_CMP : math_operation !! "CMP" = Some 167.
Proof. vm_compute. reflexivity. Qed.

Lemma binary_operation_None IR :
  IR ∉ opcode_keys -> binary_operation !! IR = None.
Proof.
  intros H. unfold binary_operation. apply not_elem_of_list_to_map_1.
  exact H.
Qed.

Lemma binary_operation_None_inv IR :
  binary_operation !! IR = None -> IR ∉ opcode_keys.
Proof.
  intros H. unfold binary_operation in H.
  apply not_elem_of_list_to_map_2 in H. exact H.
Qed.

End Tables.

(** * The ALU, operation by operation *)

Section ALUEquations.

Lemma ALU_ADD a b s :
  ALU 160 a b s =
  (let* x := reg_get a in let* y := reg_get b in reg_set a (x + y)) s.
Proof. unfold ALU, math_op. rewrite math_operation_ADD. reflexivity. Qed.

Lemma ALU_SUB a b s :
  ALU 161 a b s =
  (let* x := reg_get a in let* y := reg_get b in reg_set a (x - y)) s.
Proof.
  unfold ALU, math_op.
  rewrite math_operation_ADD, math_operation_SUB. reflexivity.
Qed.

Lemma ALU_MUL a b s :
  ALU 162 a b s =
  (let* x := reg_get a in let* y := reg_get b in reg_set a (x * y)) s.
Proof.
  unfold ALU, math_op.
  rewrite math_operation_ADD, math_operation_SUB, math_operation_MUL. reflexivity.
Qed.

Lemma ALU_CMP ra rb s :
  ALU 167 ra rb s =
  (let* a := get_operand operand_a in
   let* valueA := reg_get a in
   let* b := get_operand operand_b in
   let* valueB := reg_get b in
   do (if bool_decide (valueA = valueB) then set_FL 1 else ret tt) then
   do (if bool_decide (valueA < valueB) then set_FL 4 else ret tt) then
   do (if bool_decide (valueA > valueB) then set_FL 2 else ret tt) then
   let* fl := get FL in
   print (Print_int fl)) s.
Proof.
  unfold ALU, math_op.
  rewrite math_operation_ADD, math_operation_SUB, math_operation_MUL, math_operation_CMP.
  reflexivity.
Qed.

Lemma ALU_other op a b s :
  op <> 160 -> op <> 161 -> op <> 162 -> op <> 167 ->
  ALU op a b s = Raise (Exception_ "Unsupported ALU operation") s.
Proof.
  intros H0 H1 H2 H7. unfold ALU, math_op.
  rewrite math_operation_ADD, math_operation_SUB, math_operation_MUL, math_operation_CMP.
  unfold bind, ret.
  rewrite !bool_decide_eq_false_2 by assumption. reflexivity.
Qed.

End ALUEquations.

(** * The two flag tests of the loop *)

Section FlagTests.

(** A property checked on every element of [seqZ 0 n] holds on the range. *)
Lemma forall_below (P : Z -> bool) n :
  forallb P (seqZ 0 n) = true -> forall x, 0 <= x < n -> P x = true.
Proof.
  intros H x Hx. rewrite forallb_forall in H. apply H.
  apply list_elem_of_In, elem_of_seqZ. lia.
Qed.

Lemma shiftr7_mod255_range x :
  Z.shiftr (x mod 255) 7 = 0 \/ Z.shiftr (x mod 255) 7 = 1.
Proof.
  pose proof (Z.mod_pos_bound x 255 ltac:(lia)) as Hb.
  rewrite Z.shiftr_div_pow2 by lia. change (2 ^ 7) with 128.
  assert (0 <= x mod 255 / 128 < 2) as Hq; [|lia].
  split.
  - apply Z.div_pos; lia.
  - apply Z.div_lt_upper_bound; lia.
Qed.

(** Whatever integer the opcode cell holds, the routing expression is 0 or
    1: the [else] of [run] can never be taken. *)
Lemma alu_test_range IR : alu_test IR = 0 \/ alu_test IR = 1.
Proof. apply shiftr7_mod255_range. Qed.

Lemma sets_pc_test_range IR : sets_pc_test IR = 0 \/ sets_pc_test IR = 1.
Proof. apply shiftr7_mod255_range. Qed.

(** Below 255 the modulo-255 expressions are the bit extractions. *)
Lemma alu_test_below_255 IR :
  0 <= IR < 255 -> alu_test IR = alu_flag_spec IR.
Proof.
  intros H.
  apply (forall_below (fun x => bool_decide (alu_test x = alu_flag_spec x)) 255) in H.
  - by apply bool_decide_eq_true_1 in H.
  - vm_compute. reflexivity.
Qed.

Lemma sets_pc_test_below_255 IR :
  0 <= IR < 255 -> sets_pc_test IR = pc_flag_spec IR.
Proof.
  intros H.
  apply (forall_below (fun x => bool_decide (sets_pc_test x = pc_flag_spec x)) 255) in H.
  - by apply bool_decide_eq_true_1 in H.
  - vm_compute. reflexivity.
Qed.

Lemma alu_flag_spec_testbit IR : alu_flag_spec IR = Z.b2z (Z.testbit IR 5).
Proof.
  unfold alu_flag_spec. change 1 with (Z.ones 1).
  rewrite Z.land_ones by lia. change (2 ^ 1) with 2.
  rewrite <- Z.bit0_mod, Z.shiftr_spec by lia. reflexivity.
Qed.

Lemma pc_flag_spec_testbit IR : pc_flag_spec IR = Z.b2z (Z.testbit IR 4).
Proof.
  unfold pc_flag_spec. change 1 with (Z.ones 1).
  rewrite Z.land_ones by lia. change (2 ^ 1) with 2.
  rewrite <- Z.bit0_mod, Z.shiftr_spec by lia. reflexivity.
Qed.

(** The [elif] of [run] is the negation of its [if]. *)
Lemma execute_two_way IR s :
  execute IR s =
  (if bool_decide (alu_test IR = 1) then
     let* x := get_operand operand_a in
     let* y := get_operand operand_b in
     do ALU IR x y then move_PC IR
   else
     do dispatch IR then move_PC IR) s.
Proof.
  unfold execute. case_bool_decide as H1; [reflexivity|].
  rewrite bool_decide_eq_true_2; [reflexivity|].
  destruct (alu_test_range IR); congruence.
Qed.

Lemma move_PC_suppressed IR s :
  sets_pc_test IR = 1 -> move_PC IR s = Normal tt s.
Proof.
  intros H. unfold move_PC. rewrite bool_decide_eq_false_2 by (rewrite H; auto).
  reflexivity.
Qed.

Lemma move_PC_advance IR s :
  sets_pc_test IR = 0 ->
  move_PC IR s =
  Normal tt (mkCPU (ram s) (reg s) (operand_a s) (operand_b s) (PC s + (Z.shiftr IR 6 + 1))
                   (MAR s) (MDR s) (FL s) (out s)).
Proof.
  intros H. unfold move_PC. rewrite bool_decide_eq_true_2 by (rewrite H; lia).
  reflexivity.
Qed.

End FlagTests.

(** * The fetch *)

Section Fetch.

Lemma ram_read_ok s i v :
  py_getitem (ram s) i = Some v ->
  ram_read i s =
  Normal v (mkCPU (ram s) (reg s) (operand_a s) (operand_b s) (PC s) (Some i) (Some v)
                  (FL s) (out s)).
Proof.
  intros H. unfold ram_read, bind, set_MAR, set_MDR, ram_get, get, ret. cbn.
  rewrite H. cbn. rewrite H. reflexivity.
Qed.

Lemma ram_read_fail s i :
  py_getitem (ram s) i = None ->
  ram_read i s =
  Raise IndexError (mkCPU (ram s) (reg s) (operand_a s) (operand_b s) (PC s) (Some i) (MDR s)
                          (FL s) (out s)).
Proof.
  intros H. unfold ram_read, bind, set_MAR, set_MDR, ram_get, get, ret, raise. cbn.
  rewrite H. reflexivity.
Qed.

(** All three cells exist: the opcode is returned and both operand
    attributes are loaded, whatever the opcode is. *)
Lemma fetch_ok s IR a b :
  py_getitem (ram s) (PC s) = Some IR ->
  py_getitem (ram s) (PC s + 1) = Some a ->
  py_getitem (ram s) (PC s + 2) = Some b ->
  fetch s =
  Normal IR (mkCPU (ram s) (reg s) (Some a) (Some b) (PC s) (Some (PC s + 2)) (Some b)
                   (FL s) (out s)).
Proof.
  intros H0 H1 H2. unfold fetch.
  erewrite bind_Normal by reflexivity.
  step_with ram_read_ok. step_with ram_read_ok. step_with ram_read_ok.
  reflexivity.
Qed.

Lemma fetch_fail_0 s :
  py_getitem (ram s) (PC s) = None ->
  exists s', fetch s = Raise IndexError s' /\ out s' = out s /\ PC s' = PC s.
Proof.
  intros H0. unfold fetch. eexists.
  erewrite bind_Normal by reflexivity.
  erewrite bind_Raise by (apply ram_read_fail; exact H0).
  repeat split; reflexivity.
Qed.

Lemma fetch_fail_1 s IR :
  py_getitem (ram s) (PC s) = Some IR ->
  py_getitem (ram s) (PC s + 1) = None ->
  exists s', fetch s = Raise IndexError s' /\ out s' = out s /\ PC s' = PC s.
Proof.
  intros H0 H1. unfold fetch. eexists.
  erewrite bind_Normal by reflexivity.
  step_with ram_read_ok.
  erewrite bind_Raise by (apply ram_read_fail; exact H1).
  repeat split; reflexivity.
Qed.

Lemma fetch_fail_2 s IR a :
  py_getitem (ram s) (PC s) = Some IR ->
  py_getitem (ram s) (PC s + 1) = Some a ->
  py_getitem (ram s) (PC s + 2) = None ->
  exists s', fetch s = Raise IndexError s' /\ out s' = out s /\ PC s' = PC s.
Proof.
  intros H0 H1 H2. unfold fetch. eexists.
  erewrite bind_Normal by reflexivity.
  step_with ram_read_ok. step_with ram_read_ok.
  erewrite bind_Raise by (apply ram_read_fail; exact H2).
  repeat split; reflexivity.
Qed.

(** A fetch that returns has read three existing cells. *)
Lemma fetch_Normal_inv s IR s1 :
  fetch s = Normal IR s1 ->
  exists a b,
    py_getitem (ram s) (PC s) = Some IR /\
    py_getitem (ram s) (PC s + 1) = Some a /\
    py_getitem (ram s) (PC s + 2) = Some b /\
    s1 = mkCPU (ram s) (reg s) (Some a) (Some b) (PC s) (Some (PC s + 2)) (Some b)
               (FL s) (out s).
Proof.
  intros H.
  destruct (py_getitem (ram s) (PC s)) as [IR'|] eqn:H0.
  2: { destruct (fetch_fail_0 s H0) as (s' & E & _). congruence. }
  destruct (py_getitem (ram s) (PC s + 1)) as [a|] eqn:H1.
  2: { destruct (fetch_fail_1 s IR' H0 H1) as (s' & E & _). congruence. }
  destruct (py_getitem (ram s) (PC s + 2)) as [b|] eqn:H2.
  2: { destruct (fetch_fail_2 s IR' a H0 H1 H2) as (s' & E & _). congruence. }
  rewrite (fetch_ok s IR' a b H0 H1 H2) in H. injection H as -> <-.
  exists a, b. auto.
Qed.

End Fetch.

(** * One cycle *)

Section Cycle.

Lemma cycle_fetch s IR s1 :
  fetch s = Normal IR s1 -> cycle s = execute IR s1.
Proof. intros H. unfold cycle. by rewrite (bind_Normal _ _ _ _ _ H). Qed.

Lemma cycle_fetch_fail s e s1 :
  fetch s = Raise e s1 -> cycle s = Raise e s1.
Proof. intros H. unfold cycle. by rewrite (bind_Raise _ _ _ _ _ H). Qed.

(** An opcode that the routing expression sends to the table and that the
    table does not hold: the lookup raises [KeyError], nothing is printed,
    and neither the report nor [sys.exit(1)] of the last branch is reached. *)
Lemma cycle_unknown_opcode s IR s1 :
  fetch s = Normal IR s1 ->
  alu_test IR <> 1 ->
  binary_operation !! IR = None ->
  cycle s = Raise (KeyError IR) s1 /\ out s1 = out s.
Proof.
  intros Hf Ht Hk. rewrite (cycle_fetch _ _ _ Hf), execute_two_way.
  rewrite bool_decide_eq_false_2 by assumption.
  unfold bind, dispatch. rewrite Hk. split; [reflexivity|].
  apply fetch_Normal_inv in Hf as (a & b & _ & _ & _ & ->). reflexivity.
Qed.

(** An opcode routed to the ALU that is none of the four operations. *)
Lemma cycle_unsupported_alu s IR s1 :
  fetch s = Normal IR s1 ->
  alu_test IR = 1 ->
  IR <> 160 -> IR <> 161 -> IR <> 162 -> IR <> 167 ->
  cycle s = Raise (Exception_ "Unsupported ALU operation") s1.
Proof.
  intros Hf Ht H0 H1 H2 H7. rewrite (cycle_fetch _ _ _ Hf), execute_two_way.
  rewrite bool_decide_eq_true_2 by assumption.
  apply fetch_Normal_inv in Hf as (a & b & _ & _ & _ & ->).
  step_with get_operand_ok.
  erewrite bind_Raise; [reflexivity|].
  by apply ALU_other.
Qed.

Lemma run_Raise fuel s e s' :
  cycle s = Raise e s' -> run (S fuel) s = Some (e, s').
Proof. intros H. cbn. rewrite H. reflexivity. Qed.

Lemma run_Normal fuel s s' :
  cycle s = Normal tt s' -> run (S fuel) s = run fuel s'.
Proof. intros H. cbn. rewrite H. reflexivity. Qed.

End Cycle.

(** * Decoding: which routine a cycle runs, and who moves PC *)

Section Decoding.

(** Every opcode of the branch table is routed to the table; the five that
    carry bit 4 keep [move_PC] from advancing, the other five let it advance
    by [1 + (IR >> 6)]. *)
Lemma table_opcodes_decode :
  Forall (fun IR => alu_test IR = 0) opcode_keys
  /\ Forall (fun IR => sets_pc_test IR = 1) [80; 17; 84; 85; 86]
  /\ Forall (fun IR => sets_pc_test IR = 0) [1; 130; 71; 69; 70].
Proof. repeat split; repeat constructor. Qed.

(** The four ALU opcodes are routed to the ALU and let [move_PC] advance. *)
Lemma alu_opcodes_decode :
  Forall (fun IR => alu_test IR = 1 /\ sets_pc_test IR = 0) [160; 161; 162; 167].
Proof. repeat constructor. Qed.

(** A table opcode runs its routine on the state the fetch left. *)
Lemma cycle_dispatch s IR s1 name routine :
  fetch s = Normal IR s1 ->
  alu_test IR = 0 ->
  binary_operation !! IR = Some name ->
  instructions !! name = Some routine ->
  cycle s = (do routine then move_PC IR) s1.
Proof.
  intros Hf Ht Hn Hr. rewrite (cycle_fetch _ _ _ Hf), execute_two_way.
  rewrite bool_decide_eq_false_2 by (rewrite Ht; discriminate).
  unfold bind, dispatch. rewrite Hn, Hr. reflexivity.
Qed.

(** When the opcode carries bit 4 as [move_PC] tests it, the cycle is the
    routine alone. *)
Lemma cycle_dispatch_sets_pc s IR s1 name routine :
  fetch s = Normal IR s1 ->
  alu_test IR = 0 ->
  sets_pc_test IR = 1 ->
  binary_operation !! IR = Some name ->
  instructions !! name = Some routine ->
  cycle s = routine s1.
Proof.
  intros Hf Ht Hp Hn Hr. rewrite (cycle_dispatch _ _ _ _ _ Hf Ht Hn Hr).
  unfold bind. destruct (routine s1) as [[] s2|e s2]; [|reflexivity].
  by apply move_PC_suppressed.
Qed.

Lemma cycle_CALL s s1 : fetch s = Normal 80 s1 -> cycle s = CALL s1.
Proof. intros Hf. by eapply cycle_dispatch_sets_pc. Qed.

Lemma cycle_RET s s1 : fetch s = Normal 17 s1 -> cycle s = RET s1.
Proof. intros Hf. by eapply cycle_dispatch_sets_pc. Qed.

Lemma cycle_JMP s s1 : fetch s = Normal 84 s1 -> cycle s = JMP s1.
Proof. intros Hf. by eapply cycle_dispatch_sets_pc. Qed.

Lemma cycle_JEQ s s1 : fetch s = Normal 85 s1 -> cycle s = JEQ s1.
Proof. intros Hf. by eapply cycle_dispatch_sets_pc. Qed.

Lemma cycle_JNE s s1 : fetch s = Normal 86 s1 -> cycle s = JNE s1.
Proof. intros Hf. by eapply cycle_dispatch_sets_pc. Qed.

Lemma cycle_PUSH s s1 :
  fetch s = Normal 69 s1 -> cycle s = (do PUSH then move_PC 69) s1.
Proof. intros Hf. by eapply cycle_dispatch. Qed.

Lemma cycle_POP s s1 :
  fetch s = Normal 70 s1 -> cycle s = (do POP then move_PC 70) s1.
Proof. intros Hf. by eapply cycle_dispatch. Qed.

Lemma cycle_HLT s s1 :
  fetch s = Normal 1 s1 -> cycle s = Raise (SystemExit None) s1.
Proof.
  intros Hf.
  by rewrite (cycle_dispatch s 1 s1 "HLT" HALT Hf eq_refl eq_refl eq_refl).
Qed.

End Decoding.

(** * The lists keep their lengths *)

Section Lengths.

Lemma keeps_bind {A B} (m : M A) (k : A -> M B) :
  keeps_lengths m -> (forall a, keeps_lengths (k a)) -> keeps_lengths (bind m k).
Proof.
  intros Hm Hk s. unfold bind. specialize (Hm s).
  destruct (m s) as [a s1|e s1]; [|exact Hm].
  specialize (Hk a s1). destruct (k a s1); intuition congruence.
Qed.

Lemma keeps_ret {A} (a : A) : keeps_lengths (ret a).
Proof. intros s. cbn. auto. Qed.

Lemma keeps_raise {A} e : keeps_lengths (@raise A e).
Proof. intros s. cbn. auto. Qed.

Lemma keeps_get {A} (f : CPU -> A) : keeps_lengths (get f).
Proof. intros s. cbn. auto. Qed.

Lemma keeps_if {A} (b : bool) (m1 m2 : M A) :
  keeps_lengths m1 -> keeps_lengths m2 -> keeps_lengths (if b then m1 else m2).
Proof. destruct b; auto. Qed.

Lemma keeps_reg_get i : keeps_lengths (reg_get i).
Proof. intros s. unfold reg_get, bind, get. destruct (py_getitem _ _); cbn; auto. Qed.

Lemma keeps_ram_get i : keeps_lengths (ram_get i).
Proof. intros s. unfold ram_get, bind, get. destruct (py_getitem _ _); cbn; auto. Qed.

Lemma keeps_reg_set i v : keeps_lengths (reg_set i v).
Proof.
  intros s. unfold reg_set, bind, get.
  destruct (py_setitem _ _ _) as [l'|] eqn:E; cbn; [|auto].
  apply py_setitem_getitem in E as [_ E]. auto.
Qed.

Lemma keeps_ram_set i v : keeps_lengths (ram_set i v).
Proof.
  intros s. unfold ram_set, bind, get.
  destruct (py_setitem _ _ _) as [l'|] eqn:E; cbn; [|auto].
  apply py_setitem_getitem in E as [_ E]. auto.
Qed.

Lemma keeps_get_operand f : keeps_lengths (get_operand f).
Proof. intros s. unfold get_operand, bind, get. destruct (f s); cbn; auto. Qed.

Lemma keeps_math_op name : keeps_lengths (math_op name).
Proof. intros s. unfold math_op. destruct (_ !! _); cbn; auto. Qed.

Lemma keeps_set_operand_a v : keeps_lengths (set_operand_a v).
Proof. intros s. cbn. auto. Qed.
Lemma keeps_set_operand_b v : keeps_lengths (set_operand_b v).
Proof. intros s. cbn. auto. Qed.
Lemma keeps_set_PC v : keeps_lengths (set_PC v).
Proof. intros s. cbn. auto. Qed.
Lemma keeps_set_MAR v : keeps_lengths (set_MAR v).
Proof. intros s. cbn. auto. Qed.
Lemma keeps_set_MDR v : keeps_lengths (set_MDR v).
Proof. intros s. cbn. auto. Qed.
Lemma keeps_set_FL v : keeps_lengths (set_FL v).
Proof. intros s. cbn. auto. Qed.
Lemma keeps_print e : keeps_lengths (print e).
Proof. intros s. cbn. auto. Qed.

End Lengths.

Create HintDb keeps.
#[global] Hint Resolve keeps_ret keeps_raise keeps_get keeps_reg_get keeps_ram_get
  keeps_reg_set keeps_ram_set keeps_get_operand keeps_math_op keeps_set_operand_a
  keeps_set_operand_b keeps_set_PC keeps_set_MAR keeps_set_MDR keeps_set_FL
  keeps_print : keeps.

(** Walks through a routine: one [keeps_bind] per [let*], one [keeps_if] per
    [if], the primitives from the hint database. *)
Ltac keeps :=
  repeat first
    [ solve [auto with keeps]
    | apply keeps_bind; [|intros ?]
    | apply keeps_if ].

Section RoutinesKeepLengths.

Lemma keeps_ram_read i : keeps_lengths (ram_read i).
Proof. unfold ram_read. keeps. Qed.

Lemma keeps_trace_regs idxs : keeps_lengths (trace_regs idxs).
Proof. induction idxs as [|i rest IH]; cbn; keeps. Qed.

Lemma keeps_trace : keeps_lengths trace.
Proof. unfold trace. pose proof keeps_ram_read. pose proof keeps_trace_regs. keeps. Qed.

Lemma keeps_ALU op a b : keeps_lengths (ALU op a b).
Proof. unfold ALU. keeps. Qed.

Lemma keeps_move_PC IR : keeps_lengths (move_PC IR).
Proof. unfold move_PC. keeps. Qed.

Lemma keeps_instructions name routine :
  instructions !! name = Some routine -> keeps_lengths routine.
Proof.
  intros H. unfold instructions in H. apply elem_of_list_to_map_2 in H.
  repeat (apply elem_of_cons in H; destruct H as [H|H];
          [injection H as _ ->;
           unfold HALT, LOAD, PRINT, PUSH, POP, CALL, RET, JMP, JEQ, JNE, sys_exit; keeps|]).
  by apply elem_of_nil in H.
Qed.

Lemma keeps_dispatch IR : keeps_lengths (dispatch IR).
Proof.
  unfold dispatch. destruct (binary_operation !! IR) as [name|]; [|keeps].
  destruct (instructions !! name) as [routine|] eqn:E; [|keeps].
  by eapply keeps_instructions.
Qed.

Lemma keeps_fetch : keeps_lengths fetch.
Proof. unfold fetch. pose proof keeps_ram_read. keeps. Qed.

Lemma keeps_execute IR : keeps_lengths (execute IR).
Proof.
  unfold execute, sys_exit.
  pose proof keeps_ALU. pose proof keeps_move_PC. pose proof keeps_dispatch.
  pose proof keeps_trace. keeps.
Qed.

Lemma keeps_cycle : keeps_lengths cycle.
Proof. unfold cycle. pose proof keeps_fetch. pose proof keeps_execute. keeps. Qed.

(** Well-formedness is an invariant of the loop. *)
Lemma cycle_wf s s' : wf s -> cycle s = Normal tt s' -> wf s'.
Proof.
  intros [Hm Hr] H. pose proof (keeps_cycle s) as K. rewrite H in K.
  destruct K as [K1 K2]. split; congruence.
Qed.

Lemma run_wf fuel s e s' : wf s -> run fuel s = Some (e, s') -> wf s'.
Proof.
  revert s. induction fuel as [|fuel IH]; intros s Hwf; cbn; [discriminate|].
  pose proof (keeps_cycle s) as K.
  destruct (cycle s) as [[] s1|e1 s1] eqn:E.
  - apply IH. by eapply cycle_wf.
  - intros [= <- <-]. destruct Hwf, K. split; congruence.
Qed.

Lemma CPU__init__wf : wf CPU__init__.
Proof. split; reflexivity. Qed.

End RoutinesKeepLengths.

(** * Stack discipline *)

(** C6. PUSH of register [r] followed at once by POP into register [r]:
    whenever the decremented stack pointer is an index Python accepts for the
    256-cell memory (which covers every stack pointer in 0..255), both
    routines return, register [r] holds its original value again and so does
    the stack-pointer register; in fact the whole register file is as
    before. *)
Theorem PUSH_POP_roundtrip s r v sp :
  wf s ->
  operand_a s = Some r ->
  py_getitem (reg s) r = Some v ->
  py_getitem (reg s) SP = Some sp ->
  -256 <= sp - 1 < 256 ->
  exists s', (do PUSH then POP) s = Normal tt s'
    /\ py_getitem (reg s') r = Some v
    /\ py_getitem (reg s') SP = Some sp
    /\ reg s' = reg s.
Proof.
  intros [Hram Hreg] Ha Hv Hsp Hin.
  destruct (py_setitem_is_Some (reg s) SP (sp - 1)) as [r1 Hr1];
    [rewrite Hreg; unfold SP; lia|].
  pose proof (py_setitem_getitem _ _ _ _ Hr1) as [Hr1sp Hr1len].
  assert (is_Some (py_getitem r1 r)) as [value Hvalue].
  { apply py_getitem_is_Some. rewrite Hr1len. apply py_getitem_is_Some. eauto. }
  destruct (py_setitem_is_Some (ram s) (sp - 1) value) as [m1 Hm1];
    [rewrite Hram; lia|].
  pose proof (py_setitem_getitem _ _ _ _ Hm1) as [Hm1sp _].
  exists (mkCPU m1 (reg s) (operand_a s) (operand_b s) (PC s) (MAR s) (MDR s) (FL s) (out s)).
  split; [|cbn; auto].
  erewrite bind_Normal by (eapply PUSH_ok; eassumption).
  erewrite POP_ok; [reflexivity | cbn; try eassumption ..].
  - by apply py_setitem_id.
  - rewrite (py_setitem_setitem _ _ _ _ _ Hr1).
    replace (sp - 1 + 1) with sp by lia. by apply py_setitem_id.
Qed.

Lemma PUSH_POP_roundtrip_witness :
  (wf sample_state /\ operand_a sample_state = Some 0 /\
   py_getitem (reg sample_state) 0 = Some 5 /\
   py_getitem (reg sample_state) SP = Some 244 /\ -256 <= 244 - 1 < 256) /\
  exists s', (do PUSH then POP) sample_state = Normal tt s'
    /\ py_getitem (reg s') 0 = Some 5
    /\ py_getitem (reg s') SP = Some 244
    /\ reg s' = reg sample_state.
Proof.
  split; [repeat split; lia|].
  apply (PUSH_POP_roundtrip sample_state 0 5 244);
    [split; reflexivity | reflexivity | reflexivity | reflexivity | lia].
Defined.

(** C5. CALL, whenever the decremented stack pointer is an index Python
    accepts for the memory and [operand_a] names a register: the routine
    returns, the stack-pointer register is one less, the memory cell at the
    new stack pointer holds [PC + 2], and PC is the value of the register
    named by [operand_a] (its value before the call when that register is
    not the stack pointer itself).  A RET run from any later state whose
    stack pointer and top-of-stack cell are as CALL left them sets PC to that
    [PC + 2] and puts the stack pointer back to its value before the CALL. *)
Theorem CALL_RET_pair s a sp :
  wf s ->
  operand_a s = Some a ->
  -8 <= a < 8 ->
  py_getitem (reg s) SP = Some sp ->
  -256 <= sp - 1 < 256 ->
  exists s1, CALL s = Normal tt s1
    /\ py_getitem (reg s1) SP = Some (sp - 1)
    /\ py_getitem (ram s1) (sp - 1) = Some (PC s + 2)
    /\ py_getitem (reg s1) a = Some (PC s1)
    /\ (py_index 8 a <> py_index 8 SP -> py_getitem (reg s) a = Some (PC s1))
    /\ forall s2,
         length (reg s2) = 8%nat ->
         py_getitem (reg s2) SP = Some (sp - 1) ->
         py_getitem (ram s2) (sp - 1) = Some (PC s + 2) ->
         exists s3, RET s2 = Normal tt s3
           /\ PC s3 = PC s + 2
           /\ py_getitem (reg s3) SP = Some sp.
Proof.
  intros [Hram Hreg] Ha Hr Hsp Hin.
  destruct (py_setitem_is_Some (reg s) SP (sp - 1)) as [r1 Hr1];
    [rewrite Hreg; unfold SP; lia|].
  pose proof (py_setitem_getitem _ _ _ _ Hr1) as [Hr1sp Hr1len].
  assert (is_Some (py_getitem r1 a)) as [target Htarget].
  { apply py_getitem_is_Some. rewrite Hr1len, Hreg. lia. }
  destruct (py_setitem_is_Some (ram s) (sp - 1) (PC s + 2)) as [m1 Hm1];
    [rewrite Hram; lia|].
  pose proof (py_setitem_getitem _ _ _ _ Hm1) as [Hm1sp _].
  exists (mkCPU m1 r1 (operand_a s) (operand_b s) target (MAR s) (MDR s) (FL s) (out s)).
  split; [by eapply CALL_ok|]. cbn.
  repeat split; try assumption.
  - intros Hne. rewrite <- Htarget. symmetry.
    eapply py_setitem_getitem_other; [exact Hr1|].
    rewrite Hreg. intros E. apply Hne. symmetry. exact E.
  - intros s2 Hlen2 Hsp2 Htop2.
    destruct (py_setitem_is_Some (reg s2) SP (sp - 1 + 1)) as [r3 Hr3];
      [rewrite Hlen2; unfold SP; lia|].
    pose proof (py_setitem_getitem _ _ _ _ Hr3) as [Hr3sp _].
    exists (mkCPU (ram s2) r3 (operand_a s2) (operand_b s2) (PC s + 2) (MAR s2) (MDR s2)
                  (FL s2) (out s2)).
    split; [by eapply RET_ok|]. cbn. split; [reflexivity|].
    rewrite Hr3sp. f_equal. lia.
Qed.

Lemma CALL_RET_pair_witness :
  (wf sample_state /\ operand_a sample_state = Some 0 /\ -8 <= 0 < 8 /\
   py_getitem (reg sample_state) SP = Some 244 /\ -256 <= 244 - 1 < 256) /\
  exists s1, CALL sample_state = Normal tt s1
    /\ py_getitem (reg s1) SP = Some (244 - 1)
    /\ py_getitem (ram s1) (244 - 1) = Some (PC sample_state + 2)
    /\ py_getitem (reg s1) 0 = Some (PC s1)
    /\ (py_index 8 0 <> py_index 8 SP -> py_getitem (reg sample_state) 0 = Some (PC s1))
    /\ forall s2,
         length (reg s2) = 8%nat ->
         py_getitem (reg s2) SP = Some (244 - 1) ->
         py_getitem (ram s2) (244 - 1) = Some (PC sample_state + 2) ->
         exists s3, RET s2 = Normal tt s3
           /\ PC s3 = PC sample_state + 2
           /\ py_getitem (reg s3) SP = Some 244.
Proof.
  split; [repeat split; lia|].
  apply (CALL_RET_pair sample_state 0 244);
    [split; reflexivity | reflexivity | lia | reflexivity | lia].
Defined.

(** * The ALU on existing registers *)

(** CMP, step by step: of the three independent [if]s exactly one assigns. *)
Lemma ALU_CMP_ok s ra rb a b x y :
  operand_a s = Some a ->
  operand_b s = Some b ->
  py_getitem (reg s) a = Some x ->
  py_getitem (reg s) b = Some y ->
  ALU 167 ra rb s =
  Normal tt (mkCPU (ram s) (reg s) (operand_a s) (operand_b s) (PC s) (MAR s) (MDR s)
                   (flags_of_comparison x y)
                   (out s ++ [Print_int (flags_of_comparison x y)])).
Proof.
  intros Ha Hb Hx Hy. rewrite ALU_CMP.
  step_with get_operand_ok. step_with reg_get_ok.
  step_with get_operand_ok. step_with reg_get_ok.
  unfold flags_of_comparison, bind, set_FL, ret, get, print.
  repeat case_bool_decide; cbn; try reflexivity; exfalso; lia.
Qed.

(** The three arithmetic operations, step by step. *)
Lemma ALU_arith_ok (f : Z -> Z -> Z) (body : M unit) s a b x y :
  body = (let* x := reg_get a in let* y := reg_get b in reg_set a (f x y)) ->
  py_getitem (reg s) a = Some x ->
  py_getitem (reg s) b = Some y ->
  exists r', py_setitem (reg s) a (f x y) = Some r' /\
    body s =
    Normal tt (mkCPU (ram s) r' (operand_a s) (operand_b s) (PC s) (MAR s) (MDR s) (FL s) (out s)).
Proof.
  intros -> Hx Hy.
  destruct (py_setitem_is_Some (reg s) a (f x y)) as [r' Hr'].
  { apply py_getitem_is_Some. eauto. }
  exists r'. split; [assumption|].
  step_with reg_get_ok. step_with reg_get_ok.
  rewrite Hr'. reflexivity.
Qed.

(** C3, as stated, fails: ADD on registers holding 255 and 1 leaves 256 in
    the destination, not [(255 + 1) mod 256 = 0]. *)
Lemma ADD_255_1_does_not_wrap :
  exists s', ALU 160 0 1 state_255_1 = Normal tt s'
    /\ py_getitem (reg s') 0 = Some 256
    /\ py_getitem (reg s') 0 <> Some ((255 + 1) mod 256).
Proof.
  eexists. split; [rewrite ALU_ADD; reflexivity|].
  split; [reflexivity|]. cbn. discriminate.
Qed.

(** The same on a whole program: [prog_add_255_1] prints 256. *)
Example run_add_255_1 :
  observe (run 10 (with_program prog_add_255_1 CPU__init__))
  = Some (SystemExit None, [Print_int 256]).
Proof. vm_compute. reflexivity. Qed.

(** C3, amended. ADD, SUB and MUL on two existing registers return and leave
    the destination register holding the exact integer sum, difference or
    product of the two register values: no reduction modulo 256 is applied. *)
Theorem ALU_arith_exact s a b x y :
  py_getitem (reg s) a = Some x ->
  py_getitem (reg s) b = Some y ->
  (exists s', ALU 160 a b s = Normal tt s' /\ py_getitem (reg s') a = Some (x + y))
  /\ (exists s', ALU 161 a b s = Normal tt s' /\ py_getitem (reg s') a = Some (x - y))
  /\ (exists s', ALU 162 a b s = Normal tt s' /\ py_getitem (reg s') a = Some (x * y)).
Proof.
  intros Hx Hy. repeat split.
  - destruct (ALU_arith_ok Z.add _ s a b x y eq_refl Hx Hy) as (r' & Hr' & E).
    eexists. rewrite ALU_ADD. split; [exact E|]. cbn.
    by apply py_setitem_getitem in Hr' as [? _].
  - destruct (ALU_arith_ok Z.sub _ s a b x y eq_refl Hx Hy) as (r' & Hr' & E).
    eexists. rewrite ALU_SUB. split; [exact E|]. cbn.
    by apply py_setitem_getitem in Hr' as [? _].
  - destruct (ALU_arith_ok Z.mul _ s a b x y eq_refl Hx Hy) as (r' & Hr' & E).
    eexists. rewrite ALU_MUL. split; [exact E|]. cbn.
    by apply py_setitem_getitem in Hr' as [? _].
Qed.

Lemma ALU_arith_exact_witness :
  (py_getitem (reg state_255_1) 0 = Some 255 /\ py_getitem (reg state_255_1) 1 = Some 1) /\
  (exists s', ALU 160 0 1 state_255_1 = Normal tt s' /\ py_getitem (reg s') 0 = Some (255 + 1))
  /\ (exists s', ALU 161 0 1 state_255_1 = Normal tt s' /\ py_getitem (reg s') 0 = Some (255 - 1))
  /\ (exists s', ALU 162 0 1 state_255_1 = Normal tt s' /\ py_getitem (reg s') 0 = Some (255 * 1)).
Proof.
  split; [split; reflexivity|].
  apply (ALU_arith_exact state_255_1 0 1 255 1); reflexivity.
Defined.

(** C7. CMP on two existing registers returns, and the flags word it leaves
    is 1 (Equal) when the values are equal, else 4 (Less-than) when the
    first is smaller, else 2 (Greater-than): exactly one of bits 0, 1, 2 is
    set, every other bit is clear, and the word does not depend on the flags
    before the comparison. *)
Theorem CMP_sets_exactly_one_flag s ra rb a b x y :
  operand_a s = Some a ->
  operand_b s = Some b ->
  py_getitem (reg s) a = Some x ->
  py_getitem (reg s) b = Some y ->
  exists s', ALU 167 ra rb s = Normal tt s'
    /\ FL s' = flags_of_comparison x y
    /\ (FL s' = 1 \/ FL s' = 2 \/ FL s' = 4)
    /\ Z.testbit (FL s') 0 = bool_decide (x = y)
    /\ Z.testbit (FL s') 2 = bool_decide (x < y)
    /\ Z.testbit (FL s') 1 = bool_decide (x > y).
Proof.
  intros Ha Hb Hx Hy. eexists. split; [by eapply ALU_CMP_ok|]. cbn.
  unfold flags_of_comparison.
  repeat case_bool_decide; cbn; repeat split; auto; exfalso; lia.
Qed.

Lemma CMP_sets_exactly_one_flag_witness :
  (operand_a state_flags_dirty = Some 0 /\ operand_b state_flags_dirty = Some 1 /\
   py_getitem (reg state_flags_dirty) 0 = Some 5 /\
   py_getitem (reg state_flags_dirty) 1 = Some 9) /\
  exists s', ALU 167 0 1 state_flags_dirty = Normal tt s'
    /\ FL s' = flags_of_comparison 5 9
    /\ (FL s' = 1 \/ FL s' = 2 \/ FL s' = 4)
    /\ Z.testbit (FL s') 0 = bool_decide (5 = 9)
    /\ Z.testbit (FL s') 2 = bool_decide (5 < 9)
    /\ Z.testbit (FL s') 1 = bool_decide (5 > 9).
Proof.
  split; [repeat split; reflexivity|].
  apply (CMP_sets_exactly_one_flag state_flags_dirty 0 1 0 1 5 9); reflexivity.
Defined.

(** C10. A cycle whose opcode is CMP (167), with both operands naming
    existing registers, returns normally; besides overwriting the flags word
    it appends the new flags value to the output, and PC moves on by 3.  The
    opcode is not PRN (71): output is produced without any PRINT. *)
Theorem CMP_cycle_prints_flags s a b x y :
  py_getitem (ram s) (PC s) = Some 167 ->
  py_getitem (ram s) (PC s + 1) = Some a ->
  py_getitem (ram s) (PC s + 2) = Some b ->
  py_getitem (reg s) a = Some x ->
  py_getitem (reg s) b = Some y ->
  exists s', cycle s = Normal tt s'
    /\ FL s' = flags_of_comparison x y
    /\ out s' = out s ++ [Print_int (FL s')]
    /\ PC s' = PC s + 3.
Proof.
  intros H0 H1 H2 Hx Hy.
  rewrite (cycle_fetch _ _ _ (fetch_ok s 167 a b H0 H1 H2)), execute_two_way.
  rewrite bool_decide_eq_true_2 by reflexivity.
  step_with get_operand_ok.
  erewrite bind_Normal by (eapply ALU_CMP_ok; cbn; first [eassumption | reflexivity]).
  rewrite move_PC_advance by reflexivity. cbn.
  eexists. split; [reflexivity|]. cbn. auto.
Qed.

Lemma CMP_cycle_prints_flags_witness :
  (py_getitem (ram state_cmp) (PC state_cmp) = Some 167 /\
   py_getitem (ram state_cmp) (PC state_cmp + 1) = Some 0 /\
   py_getitem (ram state_cmp) (PC state_cmp + 2) = Some 1 /\
   py_getitem (reg state_cmp) 0 = Some 5 /\
   py_getitem (reg state_cmp) 1 = Some 9) /\
  exists s', cycle state_cmp = Normal tt s'
    /\ FL s' = flags_of_comparison 5 9
    /\ out s' = out state_cmp ++ [Print_int (FL s')]
    /\ PC s' = PC state_cmp + 3.
Proof.
  split; [repeat split; reflexivity|].
  apply (CMP_cycle_prints_flags state_cmp 0 1 5 9); reflexivity.
Defined.

Example run_cmp_only :
  (71 ∉ prog_cmp_only) /\
  observe (run 5 (with_program prog_cmp_only CPU__init__))
  = Some (SystemExit None, [Print_int 1]).
Proof.
  split; [|vm_compute; reflexivity].
  unfold prog_cmp_only. rewrite !not_elem_of_cons.
  repeat split; try discriminate. apply not_elem_of_nil.
Qed.

(** * The conditional jumps *)

Section Jumps.

Lemma JEQ_ok s a target :
  operand_a s = Some a ->
  py_getitem (reg s) a = Some target ->
  JEQ s =
  Normal tt (mkCPU (ram s) (reg s) (operand_a s) (operand_b s)
                   (if bool_decide (FL s = 1) then target else PC s + 2)
                   (MAR s) (MDR s) (FL s) (out s)).
Proof.
  intros Ha Ht. unfold JEQ.
  step_with get_operand_ok. step_with reg_get_ok.
  case_bool_decide; reflexivity.
Qed.

Lemma JNE_ok s a target :
  operand_a s = Some a ->
  py_getitem (reg s) a = Some target ->
  JNE s =
  Normal tt (mkCPU (ram s) (reg s) (operand_a s) (operand_b s)
                   (if bool_decide (FL s = 0) then target else PC s + 2)
                   (MAR s) (MDR s) (FL s) (out s)).
Proof.
  intros Ha Ht. unfold JNE.
  step_with get_operand_ok. step_with reg_get_ok.
  case_bool_decide; reflexivity.
Qed.

(** On the four flags words the machine can hold (0 at start, then what
    CMP leaves), JEQ's test [FL == 1] is the Equal bit. *)
Lemma JEQ_test_is_Equal_bit fl :
  fl = 0 \/ fl = 1 \/ fl = 2 \/ fl = 4 ->
  bool_decide (fl = 1) = Z.testbit fl 0.
Proof. intros [-> | [-> | [-> | ->]]]; reflexivity. Qed.

(** JNE's test [FL == 0] is the negated Equal bit only on 0 and 1; on the
    words 2 and 4 that CMP leaves for unequal values it is not. *)
Lemma JNE_test_vs_Equal_bit fl :
  fl = 0 \/ fl = 1 \/ fl = 2 \/ fl = 4 ->
  (bool_decide (fl = 0) = negb (Z.testbit fl 0) <-> fl = 0 \/ fl = 1).
Proof.
  intros [-> | [-> | [-> | ->]]]; cbn; split; auto; try discriminate.
  all: intros [?|?]; discriminate.
Qed.

(** Both opcodes carry bit 4, and the test of [move_PC] sees it: the loop
    adds nothing to what the routine did to PC. *)
Lemma jumps_suppress_advance : sets_pc_test 85 = 1 /\ sets_pc_test 86 = 1.
Proof. split; reflexivity. Qed.

End Jumps.

(** C2 at the input where it fails.  With the Less-than flag set the Equal
    flag is clear, yet JNE does not jump: PC becomes [PC + 2], not the value
    of the register.  On the whole program [prog_cmp_jne] the PRN that the
    jump should skip runs, so 1 is printed after the flags value 4. *)
Theorem JNE_falls_through_when_not_equal :
  Z.testbit (FL state_less) 0 = false
  /\ py_getitem (reg state_less) 0 = Some 20
  /\ (exists s', JNE state_less = Normal tt s' /\ PC s' = 12)
  /\ observe (run 10 (with_program prog_cmp_jne CPU__init__))
     = Some (SystemExit None, [Print_int 4; Print_int 1]).
Proof.
  split; [reflexivity|]. split; [reflexivity|]. split.
  - eexists. split; [apply (JNE_ok state_less 0 20); reflexivity|]. reflexivity.
  - vm_compute. reflexivity.
Qed.

(** * Unrecognised opcodes *)

(** Every byte with bit 5 clear that the table does not hold ends the cycle
    in the table lookup. *)
Lemma cycle_unknown_byte s IR s1 :
  fetch s = Normal IR s1 ->
  0 <= IR < 256 ->
  alu_flag_spec IR = 0 ->
  binary_operation !! IR = None ->
  cycle s = Raise (KeyError IR) s1 /\ out s1 = out s.
Proof.
  intros Hf Hb Hflag Hk. apply cycle_unknown_opcode; try assumption.
  destruct (decide (IR = 255)) as [->|Hne]; [discriminate Hflag|].
  rewrite alu_test_below_255 by lia. rewrite Hflag. discriminate.
Qed.

(** C1 at an input where it fails.  A freshly constructed machine has opcode
    0 at PC 0; 0 is in no table and its bit 5 is clear.  The cycle does not
    reach the branch that reports and exits with status 1: it raises
    [KeyError] from the table lookup with nothing written to the output, and
    [run] ends with that exception. *)
Theorem unknown_opcode_raises_KeyError :
  binary_operation !! 0 = None
  /\ alu_flag_spec 0 = 0
  /\ py_getitem (ram CPU__init__) (PC CPU__init__) = Some 0
  /\ exists s', cycle CPU__init__ = Raise (KeyError 0) s'
       /\ out s' = []
       /\ forall fuel, run (S fuel) CPU__init__ = Some (KeyError 0, s').
Proof.
  split; [vm_compute; reflexivity|].
  split; [reflexivity|]. split; [reflexivity|].
  eexists. split; [vm_compute; reflexivity|]. split; [reflexivity|].
  intros fuel. apply run_Raise. vm_compute. reflexivity.
Qed.

(** * The flag tests against the bit extraction *)

(** C4 at the input where it fails.  The opcode byte 255 has bits 5 and 4
    set, but both modulo-255 expressions give 0 on it: the routing test does
    not classify it as ALU and the test of [move_PC] does not suppress the
    advance.  A cycle at opcode 255 therefore goes to the table lookup. *)
Theorem flag_tests_miss_255 :
  Z.testbit 255 5 = true /\ alu_flag_spec 255 = 1 /\ alu_test 255 = 0
  /\ Z.testbit 255 4 = true /\ pc_flag_spec 255 = 1 /\ sets_pc_test 255 = 0
  /\ exists s', cycle (with_program [255] CPU__init__) = Raise (KeyError 255) s'.
Proof.
  repeat (split; [reflexivity|]).
  eexists. vm_compute. reflexivity.
Qed.

(** 255 is the only byte on which they differ. *)
Lemma flag_tests_agree_iff IR :
  0 <= IR < 256 ->
  (alu_test IR = alu_flag_spec IR /\ sets_pc_test IR = pc_flag_spec IR) <-> IR <> 255.
Proof.
  intros Hb. split.
  - intros [H _] ->. discriminate H.
  - intros Hne. split; [apply alu_test_below_255 | apply sets_pc_test_below_255]; lia.
Qed.

(** * Unsupported ALU operations *)

(** C8. For an opcode that is none of ADD, SUB, MUL, CMP, the ALU raises
    the "Unsupported ALU operation" exception whatever its arguments and the
    state; and when a cycle has fetched such an opcode and the routing test
    sends it to the ALU, the cycle ends with that same exception, which ends
    [run]: nothing catches it. *)
Theorem unsupported_ALU_operation_aborts op :
  op <> 160 -> op <> 161 -> op <> 162 -> op <> 167 ->
  (forall a b s, ALU op a b s = Raise (Exception_ "Unsupported ALU operation") s)
  /\ (forall s s1,
        fetch s = Normal op s1 ->
        alu_test op = 1 ->
        cycle s = Raise (Exception_ "Unsupported ALU operation") s1
        /\ forall fuel,
             run (S fuel) s = Some (Exception_ "Unsupported ALU operation", s1)).
Proof.
  intros H0 H1 H2 H7. split.
  - intros a b s. by apply ALU_other.
  - intros s s1 Hf Ht.
    pose proof (cycle_unsupported_alu s op s1 Hf Ht H0 H1 H2 H7) as Hc.
    split; [exact Hc|]. intros fuel. by apply run_Raise.
Qed.

Lemma unsupported_ALU_operation_aborts_witness :
  (163 <> 160 /\ 163 <> 161 /\ 163 <> 162 /\ 163 <> 167) /\
  (forall a b s, ALU 163 a b s = Raise (Exception_ "Unsupported ALU operation") s)
  /\ (forall s s1,
        fetch s = Normal 163 s1 ->
        alu_test 163 = 1 ->
        cycle s = Raise (Exception_ "Unsupported ALU operation") s1
        /\ forall fuel,
             run (S fuel) s = Some (Exception_ "Unsupported ALU operation", s1)).
Proof.
  split; [repeat split; discriminate|].
  apply (unsupported_ALU_operation_aborts 163); discriminate.
Defined.

(** The nested hypotheses are met too: opcode 163 at address 0. *)
Example run_unsupported_163 :
  alu_test 163 = 1 /\
  exists s1, fetch (with_program [163] CPU__init__) = Normal 163 s1 /\
    run 1 (with_program [163] CPU__init__)
    = Some (Exception_ "Unsupported ALU operation", s1).
Proof.
  split; [reflexivity|]. eexists. split; vm_compute; reflexivity.
Qed.

(** * The three reads of every cycle *)

(** C9. In a well-formed state the fetch reads the cells at PC, PC+1 and
    PC+2 before the opcode is looked at.  It returns exactly when all three
    are indices Python accepts for the 256-cell memory, which for a PC that
    is an address (not negative) is exactly [PC <= 253]; when it returns, the
    opcode is the cell at PC and both operand attributes hold the next two
    cells, whatever the opcode's operand count.  With PC at 254 or 255 the
    fetch, and so the cycle, raises [IndexError] with PC unchanged. *)
Theorem fetch_reads_three_cells s :
  wf s ->
  ((exists IR s1, fetch s = Normal IR s1) <-> -256 <= PC s <= 253)
  /\ (0 <= PC s -> ((exists IR s1, fetch s = Normal IR s1) <-> PC s <= 253))
  /\ (forall IR s1, fetch s = Normal IR s1 ->
        py_getitem (ram s) (PC s) = Some IR
        /\ is_Some (operand_a s1) /\ operand_a s1 = py_getitem (ram s) (PC s + 1)
        /\ is_Some (operand_b s1) /\ operand_b s1 = py_getitem (ram s) (PC s + 2)
        /\ cycle s = execute IR s1)
  /\ (PC s = 254 \/ PC s = 255 ->
        exists s', fetch s = Raise IndexError s' /\ cycle s = Raise IndexError s'
          /\ PC s' = PC s).
Proof.
  intros [Hram Hreg].
  assert (Hiff : (exists IR s1, fetch s = Normal IR s1) <-> -256 <= PC s <= 253).
  { split.
    - intros (IR & s1 & Hf).
      apply fetch_Normal_inv in Hf as (a & b & H0 & H1 & H2 & _).
      assert (is_Some (py_getitem (ram s) (PC s))) as R0 by eauto.
      assert (is_Some (py_getitem (ram s) (PC s + 2))) as R2 by eauto.
      apply py_getitem_is_Some in R0, R2. lia.
    - intros Hpc.
      destruct (proj1 (py_getitem_is_Some (ram s) (PC s))) as [IR H0]; [lia|].
      destruct (proj1 (py_getitem_is_Some (ram s) (PC s + 1))) as [a H1]; [lia|].
      destruct (proj1 (py_getitem_is_Some (ram s) (PC s + 2))) as [b H2]; [lia|].
      eexists _, _. by apply fetch_ok. }
  split; [exact Hiff|]. split; [|split].
  - intros Hpos. rewrite Hiff. lia.
  - intros IR s1 Hf. pose proof (cycle_fetch _ _ _ Hf) as Hc.
    apply fetch_Normal_inv in Hf as (a & b & H0 & H1 & H2 & ->). cbn.
    rewrite H1, H2. eauto 10.
  - intros Hpc.
    destruct (proj1 (py_getitem_is_Some (ram s) (PC s))) as [IR H0]; [lia|].
    assert (exists s', fetch s = Raise IndexError s' /\ out s' = out s /\ PC s' = PC s)
      as (s' & Hf & _ & Hpc').
    { destruct Hpc as [Hpc|Hpc].
      - destruct (proj1 (py_getitem_is_Some (ram s) (PC s + 1))) as [a H1]; [lia|].
        apply (fetch_fail_2 s IR a H0 H1). apply py_getitem_None. lia.
      - apply (fetch_fail_1 s IR H0). apply py_getitem_None. lia. }
    exists s'. split; [exact Hf|]. split; [by apply cycle_fetch_fail | exact Hpc'].
Qed.

Lemma fetch_reads_three_cells_witness :
  wf state_pc_254 /\
  exists s', fetch state_pc_254 = Raise IndexError s'
    /\ cycle state_pc_254 = Raise IndexError s' /\ PC s' = PC state_pc_254.
Proof.
  split; [split; reflexivity|].
  apply (fetch_reads_three_cells state_pc_254); [split; reflexivity|].
  left. reflexivity.
Defined.

(** * Footprints: what each routine may touch and raise *)

Section TableEntries.

Lemma instructions_HLT : instructions !! "HLT" = Some HALT.
Proof. reflexivity. Qed.
Lemma instructions_LDI : instructions !! "LDI" = Some LOAD.
Proof. reflexivity. Qed.
Lemma instructions_PRN : instructions !! "PRN" = Some PRINT.
Proof. reflexivity. Qed.
Lemma instructions_PUSH : instructions !! "PUSH" = Some PUSH.
Proof. reflexivity. Qed.
Lemma instructions_POP : instructions !! "POP" = Some POP.
Proof. reflexivity. Qed.
Lemma instructions_CALL : instructions !! "CALL" = Some CALL.
Proof. reflexivity. Qed.
Lemma instructions_RET : instructions !! "RET" = Some RET.
Proof. reflexivity. Qed.
Lemma instructions_JMP : instructions !! "JMP" = Some JMP.
Proof. reflexivity. Qed.
Lemma instructions_JEQ : instructions !! "JEQ" = Some JEQ.
Proof. reflexivity. Qed.
Lemma instructions_JNE : instructions !! "JNE" = Some JNE.
Proof. reflexivity. Qed.

End TableEntries.

Create HintDb footprint.

Section Footprint.

Context (P : CPU -> Prop) (R : CPU -> CPU -> Prop) (E : pyexn -> Prop).
Hypothesis R_refl : forall s, R s s.
Hypothesis R_trans : forall s1 s2 s3, R s1 s2 -> R s2 s3 -> R s1 s3.
Hypothesis E_index : E IndexError.
Hypothesis P_operand_a : forall s, P s -> is_Some (operand_a s) \/ E TypeError.
Hypothesis P_operand_b : forall s, P s -> is_Some (operand_b s) \/ E TypeError.

Local Abbreviation ok := (respects P R E).

Lemma respects_bind {A B} (m : M A) (k : A -> M B) :
  ok m -> (forall a, ok (k a)) -> ok (bind m k).
Proof.
  intros Hm Hk s Hs. unfold bind. specialize (Hm s Hs).
  destruct (m s) as [a s1|e s1]; [|exact Hm].
  destruct Hm as [Hp Hr]. specialize (Hk a s1 Hp).
  destruct (k a s1) as [b s2|e s2]; destruct Hk; eauto.
Qed.

Lemma respects_ret {A} (a : A) : ok (ret a).
Proof. intros s Hs. cbn. auto. Qed.

Lemma respects_get {A} (f : CPU -> A) : ok (get f).
Proof. intros s Hs. cbn. auto. Qed.

Lemma respects_raise {A} e : E e -> ok (@raise A e).
Proof. intros He s Hs. cbn. auto. Qed.

Lemma respects_decide {A} (phi : Prop) `{Decision phi} (m1 m2 : M A) :
  (phi -> ok m1) -> (~ phi -> ok m2) -> ok (if bool_decide phi then m1 else m2).
Proof. intros H1 H2. case_bool_decide; auto. Qed.

Lemma respects_reg_get i : ok (reg_get i).
Proof.
  intros s Hs. unfold reg_get, bind, get. destruct (py_getitem _ _); cbn; auto.
Qed.

Lemma respects_ram_get i : ok (ram_get i).
Proof.
  intros s Hs. unfold ram_get, bind, get. destruct (py_getitem _ _); cbn; auto.
Qed.

Lemma respects_operand_a : ok (get_operand operand_a).
Proof.
  intros s Hs. unfold get_operand, bind, get.
  destruct (P_operand_a s Hs) as [[v ->]|He]; cbn; [auto|].
  destruct (operand_a s); cbn; auto.
Qed.

Lemma respects_operand_b : ok (get_operand operand_b).
Proof.
  intros s Hs. unfold get_operand, bind, get.
  destruct (P_operand_b s Hs) as [[v ->]|He]; cbn; [auto|].
  destruct (operand_b s); cbn; auto.
Qed.

Local Hint Resolve respects_ret respects_get respects_raise respects_reg_get
  respects_ram_get respects_operand_a respects_operand_b : footprint.

(** One [respects_bind] per [let*], one [respects_decide] per [if]; the
    primitives come from the hints and from the premises in the context. *)
Local Ltac footprint :=
  repeat first
    [ solve [auto with footprint]
    | apply respects_bind; [|intros ?]
    | apply respects_decide; intros ? ].

(** The premises name the assignments each routine makes. *)
Lemma respects_JMP : (forall v, ok (set_PC v)) -> ok JMP.
Proof. intros Hpc. unfold JMP. footprint. Qed.

Lemma respects_JEQ : (forall v, ok (set_PC v)) -> ok JEQ.
Proof. intros Hpc. unfold JEQ. footprint. Qed.

Lemma respects_JNE : (forall v, ok (set_PC v)) -> ok JNE.
Proof. intros Hpc. unfold JNE. footprint. Qed.

Lemma respects_HALT : E (SystemExit None) -> ok HALT.
Proof. intros He. unfold HALT, sys_exit. footprint. Qed.

Lemma respects_LOAD : (forall i v, ok (reg_set i v)) -> ok LOAD.
Proof. intros Hreg. unfold LOAD. footprint. Qed.

Lemma respects_PRINT : (forall e, ok (print e)) -> ok PRINT.
Proof. intros Hout. unfold PRINT. footprint. Qed.

Lemma respects_PUSH :
  (forall i v, ok (reg_set i v)) -> (forall i v, ok (ram_set i v)) -> ok PUSH.
Proof. intros Hreg Hram. unfold PUSH. footprint. Qed.

Lemma respects_POP : (forall i v, ok (reg_set i v)) -> ok POP.
Proof. intros Hreg. unfold POP. footprint. Qed.

Lemma respects_CALL :
  (forall i v, ok (reg_set i v)) -> (forall i v, ok (ram_set i v)) ->
  (forall v, ok (set_PC v)) -> ok CALL.
Proof. intros Hreg Hram Hpc. unfold CALL. footprint. Qed.

Lemma respects_RET :
  (forall i v, ok (reg_set i v)) -> (forall v, ok (set_PC v)) -> ok RET.
Proof. intros Hreg Hpc. unfold RET. footprint. Qed.

Lemma respects_move_PC IR : (forall v, ok (set_PC v)) -> ok (move_PC IR).
Proof. intros Hpc. unfold move_PC. footprint. Qed.

Lemma respects_ALU op a b :
  (op <> 160 -> op <> 161 -> op <> 162 -> op <> 167 ->
   E (Exception_ "Unsupported ALU operation")) ->
  (op = 160 \/ op = 161 \/ op = 162 -> forall i v, ok (reg_set i v)) ->
  (op = 167 -> ok (set_FL 1) /\ ok (set_FL 4) /\ ok (set_FL 2)) ->
  (op = 167 -> forall e, ok (print e)) ->
  ok (ALU op a b).
Proof.
  intros He Hreg Hfl Hout s Hs.
  destruct (decide (op = 160)) as [->|N0].
  { rewrite ALU_ADD. specialize (Hreg (or_introl eq_refl)).
    revert s Hs. apply respects_bind; [|intros ?]; footprint. }
  destruct (decide (op = 161)) as [->|N1].
  { rewrite ALU_SUB. specialize (Hreg (or_intror (or_introl eq_refl))).
    revert s Hs. apply respects_bind; [|intros ?]; footprint. }
  destruct (decide (op = 162)) as [->|N2].
  { rewrite ALU_MUL. specialize (Hreg (or_intror (or_intror eq_refl))).
    revert s Hs. apply respects_bind; [|intros ?]; footprint. }
  destruct (decide (op = 167)) as [->|N7].
  { rewrite ALU_CMP. destruct (Hfl eq_refl) as (F1 & F4 & F2).
    specialize (Hout eq_refl). revert s Hs. apply respects_bind; [|intros ?]; footprint. }
  rewrite ALU_other by assumption. auto.
Qed.

Lemma respects_dispatch IR :
  (binary_operation !! IR = None -> E (KeyError IR)) ->
  (IR = 1 -> E (SystemExit None)) ->
  (IR = 130 \/ IR = 69 \/ IR = 70 \/ IR = 80 \/ IR = 17 -> forall i v, ok (reg_set i v)) ->
  (IR = 69 \/ IR = 80 -> forall i v, ok (ram_set i v)) ->
  (IR = 80 \/ IR = 17 \/ IR = 84 \/ IR = 85 \/ IR = 86 -> forall v, ok (set_PC v)) ->
  (IR = 71 -> forall e, ok (print e)) ->
  ok (dispatch IR).
Proof.
  intros Hkey Hexit Hreg Hram Hpc Hout. unfold dispatch.
  destruct (binary_operation !! IR) as [name|] eqn:Hn; [|footprint].
  unfold binary_operation in Hn. apply elem_of_list_to_map_2 in Hn.
  repeat (apply elem_of_cons in Hn; destruct Hn as [Hn|Hn]; [injection Hn as -> ->|]).
  11: by apply elem_of_nil in Hn.
  - rewrite instructions_HLT. apply respects_HALT; auto.
  - rewrite instructions_LDI. apply respects_LOAD; auto.
  - rewrite instructions_PRN. apply respects_PRINT; auto.
  - rewrite instructions_PUSH. apply respects_PUSH; auto.
  - rewrite instructions_POP. apply respects_POP; auto.
  - rewrite instructions_CALL. apply respects_CALL; auto 6.
  - rewrite instructions_RET. apply respects_RET; auto 6.
  - rewrite instructions_JMP. apply respects_JMP; auto 6.
  - rewrite instructions_JEQ. apply respects_JEQ; auto 6.
  - rewrite instructions_JNE. apply respects_JNE; auto 6.
Qed.

Lemma respects_ram_read i :
  (forall v, ok (set_MAR v)) -> (forall v, ok (set_MDR v)) -> ok (ram_read i).
Proof. intros Hmar Hmdr. unfold ram_read. footprint. Qed.

Lemma respects_fetch :
  (forall v, ok (set_MAR v)) -> (forall v, ok (set_MDR v)) ->
  (forall v, ok (set_operand_a v)) -> (forall v, ok (set_operand_b v)) ->
  ok fetch.
Proof.
  intros Hmar Hmdr Ha Hb. unfold fetch.
  pose proof (fun i => respects_ram_read i Hmar Hmdr). footprint.
Qed.

(** The loop body after the fetch, for an opcode [IR]: the premises list,
    opcode by opcode, the assignments and the exceptions it can reach. *)
Lemma respects_execute IR :
  (alu_test IR = 1 -> IR <> 160 -> IR <> 161 -> IR <> 162 -> IR <> 167 ->
   E (Exception_ "Unsupported ALU operation")) ->
  (alu_test IR = 0 -> binary_operation !! IR = None -> E (KeyError IR)) ->
  (IR = 1 -> E (SystemExit None)) ->
  (IR = 130 \/ IR = 69 \/ IR = 70 \/ IR = 80 \/ IR = 17 \/
   IR = 160 \/ IR = 161 \/ IR = 162 -> forall i v, ok (reg_set i v)) ->
  (IR = 69 \/ IR = 80 -> forall i v, ok (ram_set i v)) ->
  (IR = 167 -> ok (set_FL 1) /\ ok (set_FL 4) /\ ok (set_FL 2)) ->
  (IR = 71 \/ IR = 167 -> forall e, ok (print e)) ->
  (forall v, ok (set_PC v)) ->
  ok (execute IR).
Proof.
  intros Hun Hkey Hexit Hreg Hram Hfl Hout Hpc s Hs.
  rewrite execute_two_way. revert s Hs.
  pose proof (respects_move_PC IR Hpc) as Hmove.
  apply respects_decide; intros Ht.
  - assert (forall x y, ok (ALU IR x y)) as HALU.
    { intros x y. apply respects_ALU; tauto. }
    footprint.
  - assert (ok (dispatch IR)) as Hd.
    { destruct (alu_test_range IR) as [H0|H1]; [|contradiction].
      apply respects_dispatch; tauto. }
    footprint.
Qed.

End Footprint.

(** Discharges a premise about one assignment for a concrete choice of the
    invariant, the relation and the exceptions. *)
Ltac prim :=
  intros; unfold respects; intros ? ?;
  unfold reg_set, ram_set, bind, get; cbn;
  repeat match goal with
         | |- context [py_setitem ?l ?i ?v] => destruct (py_setitem l i v) eqn:?
         end;
  cbn; unfold same_core, operands_loaded in *; cbn; repeat split; eauto; tauto.

(** * Frame properties of a cycle *)

Section Frames.

(** A fetch that raises raises [IndexError] and has changed nothing but the
    memory-address, memory-data and operand attributes. *)
Lemma fetch_Raise_inv s e s1 :
  fetch s = Raise e s1 -> e = IndexError /\ same_core s s1.
Proof.
  intros Hf.
  assert (respects (fun _ => True) same_core (fun e => e = IndexError) fetch) as H.
  { apply respects_fetch; [by unfold same_core | | reflexivity | prim ..].
    unfold same_core. intros ??? (?&?&?&?&?) (?&?&?&?&?). repeat split; congruence. }
  specialize (H s I). rewrite Hf in H. tauto.
Qed.

(** A property of a cycle follows from the same property of the part after
    the fetch, run on the state the fetch leaves. *)
Lemma cycle_from_execute (Q : CPU -> Prop) s :
  (forall s1, same_core s s1 -> Q s1) ->
  (forall IR a b,
     py_getitem (ram s) (PC s) = Some IR ->
     Q (final (execute IR (mkCPU (ram s) (reg s) (Some a) (Some b) (PC s)
                                 (Some (PC s + 2)) (Some b) (FL s) (out s))))) ->
  Q (final (cycle s)).
Proof.
  intros Hfail Hexec. destruct (fetch s) as [IR s1|e s1] eqn:Hf.
  - rewrite (cycle_fetch _ _ _ Hf).
    apply fetch_Normal_inv in Hf as (a & b & H0 & _ & _ & ->). by apply Hexec.
  - rewrite (cycle_fetch_fail _ _ _ Hf). cbn.
    apply fetch_Raise_inv in Hf as [_ Hc]. by apply Hfail.
Qed.

(** What [respects] says about the state an action leaves. *)
Lemma respects_final {A} P R E (m : M A) s :
  respects P R E m -> P s -> R s (final (m s)).
Proof. intros H Hs. specialize (H s Hs). destruct (m s); cbn; tauto. Qed.

End Frames.

(** Premises of [respects_execute] for a frame: either the assignment is
    harmless for the relation, or the opcode at hand never makes it. *)
Ltac frame_premise :=
  first [ by prim | intros; exfalso; intuition congruence | by auto ].

(** X1. Whether it returns or raises, a cycle leaves the memory list as it
    was unless its opcode is PUSH (69) or CALL (80). *)
Theorem memory_written_only_by_PUSH_and_CALL s :
  py_getitem (ram s) (PC s) <> Some 69 ->
  py_getitem (ram s) (PC s) <> Some 80 ->
  ram (final (cycle s)) = ram s.
Proof.
  intros N69 N80.
  apply (cycle_from_execute (fun s' => ram s' = ram s)); [by intros s1 (?&_)|].
  intros IR a b H0.
  assert (IR <> 69 /\ IR <> 80) as [??] by (split; congruence).
  assert (respects (fun _ => True) (fun x y => ram y = ram x) (fun _ => True) (execute IR))
    as Hr.
  { apply respects_execute; try frame_premise. intros; congruence. }
  exact (respects_final _ _ _ _ _ Hr I).
Qed.

Lemma memory_written_only_by_PUSH_and_CALL_witness :
  (py_getitem (ram state_cmp) (PC state_cmp) <> Some 69 /\
   py_getitem (ram state_cmp) (PC state_cmp) <> Some 80) /\
  ram (final (cycle state_cmp)) = ram state_cmp.
Proof.
  split; [split; discriminate|].
  apply (memory_written_only_by_PUSH_and_CALL state_cmp); discriminate.
Defined.


(** X2. Whether it returns or raises, a cycle leaves the register list as
    it was unless its opcode is LDI, PUSH, POP, CALL, RET, ADD, SUB or MUL. *)
Theorem registers_written_only_by_eight_opcodes s :
  (forall IR, py_getitem (ram s) (PC s) = Some IR ->
              IR ∉ [130; 69; 70; 80; 17; 160; 161; 162]) ->
  reg (final (cycle s)) = reg s.
Proof.
  intros Hnot.
  apply (cycle_from_execute (fun s' => reg s' = reg s)); [by intros s1 (_&?&_)|].
  intros IR a b H0. specialize (Hnot IR H0). rewrite !not_elem_of_cons in Hnot.
  assert (respects (fun _ => True) (fun x y => reg y = reg x) (fun _ => True) (execute IR))
    as Hr.
  { apply respects_execute; try frame_premise. intros; congruence. }
  exact (respects_final _ _ _ _ _ Hr I).
Qed.

Lemma registers_written_only_by_eight_opcodes_witness :
  (forall IR, py_getitem (ram state_cmp) (PC state_cmp) = Some IR ->
              IR ∉ [130; 69; 70; 80; 17; 160; 161; 162]) /\
  reg (final (cycle state_cmp)) = reg state_cmp.
Proof.
  assert (forall IR, py_getitem (ram state_cmp) (PC state_cmp) = Some IR ->
                     IR ∉ [130; 69; 70; 80; 17; 160; 161; 162]) as H.
  { intros IR [= <-]. rewrite !not_elem_of_cons. repeat split; try discriminate.
    apply not_elem_of_nil. }
  split; [exact H|].
  apply (registers_written_only_by_eight_opcodes state_cmp H).
Defined.

(** X3. Whether it returns or raises, a cycle leaves the flags word as it
    was unless its opcode is CMP (167). *)
Theorem flags_written_only_by_CMP s :
  py_getitem (ram s) (PC s) <> Some 167 ->
  FL (final (cycle s)) = FL s.
Proof.
  intros N167.
  apply (cycle_from_execute (fun s' => FL s' = FL s)); [by intros s1 (_&_&_&?&_)|].
  intros IR a b H0.
  assert (IR <> 167) by congruence.
  assert (respects (fun _ => True) (fun x y => FL y = FL x) (fun _ => True) (execute IR))
    as Hr.
  { apply respects_execute; try frame_premise. intros; congruence. }
  exact (respects_final _ _ _ _ _ Hr I).
Qed.

Lemma flags_written_only_by_CMP_witness :
  py_getitem (ram state_prn) (PC state_prn) <> Some 167 /\
  FL (final (cycle state_prn)) = FL state_prn.
Proof.
  split; [discriminate|].
  apply (flags_written_only_by_CMP state_prn). discriminate.
Defined.

(** X4. Whether it returns or raises, a cycle writes nothing to the output
    unless its opcode is PRN (71) or CMP (167). *)
Theorem output_written_only_by_PRN_and_CMP s :
  py_getitem (ram s) (PC s) <> Some 71 ->
  py_getitem (ram s) (PC s) <> Some 167 ->
  out (final (cycle s)) = out s.
Proof.
  intros N71 N167.
  apply (cycle_from_execute (fun s' => out s' = out s)); [by intros s1 (_&_&_&_&?)|].
  intros IR a b H0.
  assert (IR <> 71 /\ IR <> 167) as [??] by (split; congruence).
  assert (respects (fun _ => True) (fun x y => out y = out x) (fun _ => True) (execute IR))
    as Hr.
  { apply respects_execute; try frame_premise. intros; congruence. }
  exact (respects_final _ _ _ _ _ Hr I).
Qed.

Lemma output_written_only_by_PRN_and_CMP_witness :
  (py_getitem (ram sample_state) (PC sample_state) <> Some 71 /\
   py_getitem (ram sample_state) (PC sample_state) <> Some 167) /\
  out (final (cycle sample_state)) = out sample_state.
Proof.
  split; [split; discriminate|].
  apply (output_written_only_by_PRN_and_CMP sample_state); discriminate.
Defined.

(** * What a cycle can raise *)



(** * The flags word along a run *)

Section Flags.

(** A set of flags words that holds the three values CMP can assign is
    closed under cycles. *)
Lemma cycle_flags_closed (S : Z -> Prop) s :
  S 1 -> S 2 -> S 4 -> S (FL s) -> S (FL (final (cycle s))).
Proof.
  intros S1 S2 S4 Hs.
  apply (cycle_from_execute (fun s' => S (FL s'))).
  { intros s1 (_&_&_&->&_). exact Hs. }
  intros IR a b H0.
  assert (respects (fun _ => True) (fun x y => S (FL x) -> S (FL y)) (fun _ => True)
                   (execute IR)) as Hr.
  { apply respects_execute; try (by prim); try (by auto). }
  match goal with
  | |- context [execute IR ?s1] => exact (respects_final _ _ _ _ s1 Hr I Hs)
  end.
Qed.

Lemma cycles_flags_closed (S : Z -> Prop) n s :
  S 1 -> S 2 -> S 4 -> S (FL s) -> S (FL (final (cycles n s))).
Proof.
  intros S1 S2 S4. revert s. induction n as [|n IH]; intros s Hs; cbn; [exact Hs|].
  pose proof (cycle_flags_closed S s S1 S2 S4 Hs) as Hc.
  destruct (cycle s) as [[] s1|e s1]; cbn in Hc; [by apply IH | exact Hc].
Qed.

End Flags.

(** X6. A machine whose flags word is one of 0, 1, 2, 4 (as it is at
    construction) still has such a flags word after any number of cycles,
    whether the last one returned or raised. *)
Theorem flags_stay_0_1_2_4 n s :
  FL s = 0 \/ FL s = 1 \/ FL s = 2 \/ FL s = 4 ->
  let fl := FL (final (cycles n s)) in fl = 0 \/ fl = 1 \/ fl = 2 \/ fl = 4.
Proof.
  intros H. by apply (cycles_flags_closed (fun fl => fl = 0 \/ fl = 1 \/ fl = 2 \/ fl = 4)); auto.
Qed.

Lemma flags_stay_0_1_2_4_witness :
  (FL (with_program prog_cmp_jne CPU__init__) = 0 \/
   FL (with_program prog_cmp_jne CPU__init__) = 1 \/
   FL (with_program prog_cmp_jne CPU__init__) = 2 \/
   FL (with_program prog_cmp_jne CPU__init__) = 4) /\
  let fl := FL (final (cycles 5 (with_program prog_cmp_jne CPU__init__))) in
  fl = 0 \/ fl = 1 \/ fl = 2 \/ fl = 4.
Proof.
  split; [by left|].
  apply (flags_stay_0_1_2_4 5 (with_program prog_cmp_jne CPU__init__)). by left.
Defined.

(** X7. Once the flags word is 1, 2 or 4 (that is, once any CMP has
    run), it stays so through any number of cycles, and a JNE cycle reached
    afterwards, with a valid register operand, does not jump: it returns with
    PC two further. *)
Theorem JNE_never_jumps_once_flags_set n s s1 r target :
  FL s = 1 \/ FL s = 2 \/ FL s = 4 ->
  cycles n s = Normal tt s1 ->
  py_getitem (ram s1) (PC s1) = Some 86 ->
  py_getitem (ram s1) (PC s1 + 1) = Some r ->
  is_Some (py_getitem (ram s1) (PC s1 + 2)) ->
  py_getitem (reg s1) r = Some target ->
  (FL s1 = 1 \/ FL s1 = 2 \/ FL s1 = 4)
  /\ exists s2, cycle s1 = Normal tt s2 /\ PC s2 = PC s1 + 2.
Proof.
  intros Hfl Hn H0 H1 [b H2] Hr.
  assert (FL s1 = 1 \/ FL s1 = 2 \/ FL s1 = 4) as Hfl1.
  { pose proof (cycles_flags_closed (fun fl => fl = 1 \/ fl = 2 \/ fl = 4) n s) as H.
    rewrite Hn in H. apply H; auto. }
  split; [exact Hfl1|].
  rewrite (cycle_JNE _ _ (fetch_ok s1 86 r b H0 H1 H2)).
  erewrite JNE_ok by (cbn; first [eassumption | reflexivity]). cbn.
  eexists. split; [reflexivity|]. cbn.
  rewrite bool_decide_eq_false_2 by lia. reflexivity.
Qed.

Lemma JNE_never_jumps_once_flags_set_witness :
  (FL state_jne_greater = 1 \/ FL state_jne_greater = 2 \/ FL state_jne_greater = 4) /\
  (FL state_jne_greater = 1 \/ FL state_jne_greater = 2 \/ FL state_jne_greater = 4)
  /\ exists s2, cycle state_jne_greater = Normal tt s2 /\ PC s2 = PC state_jne_greater + 2.
Proof.
  split; [right; left; reflexivity|].
  apply (JNE_never_jumps_once_flags_set 0 state_jne_greater state_jne_greater 0 20);
    [right; left; reflexivity | reflexivity | reflexivity | reflexivity | by eexists
    | reflexivity].
Defined.

(** * Cycles that return *)

Section Returning.

Lemma bind_Normal_inv {A B} (m : M A) (k : A -> M B) s b s' :
  bind m k s = Normal b s' ->
  exists a s1, m s = Normal a s1 /\ k a s1 = Normal b s'.
Proof. unfold bind. destruct (m s) as [a s1|e s1]; [eauto|discriminate]. Qed.

(** After a fetch the operands are integers, and [execute] is one of two
    sequences ending in [move_PC]. *)
Lemma execute_alu_branch IR s a b :
  operand_a s = Some a -> operand_b s = Some b -> alu_test IR = 1 ->
  execute IR s = (do ALU IR a b then move_PC IR) s.
Proof.
  intros Ha Hb Ht. rewrite execute_two_way.
  rewrite bool_decide_eq_true_2 by assumption.
  step_with get_operand_ok. step_with get_operand_ok. reflexivity.
Qed.

Lemma execute_table_branch IR s :
  alu_test IR <> 1 -> execute IR s = (do dispatch IR then move_PC IR) s.
Proof.
  intros Ht. rewrite execute_two_way.
  by rewrite bool_decide_eq_false_2 by assumption.
Qed.

Lemma dispatch_Normal_in_table IR s s' :
  dispatch IR s = Normal tt s' -> IR ∈ opcode_keys /\ IR <> 1.
Proof.
  unfold dispatch. destruct (binary_operation !! IR) as [name|] eqn:Hn; [|discriminate].
  intros Hd. split.
  - destruct (decide (IR ∈ opcode_keys)) as [|Hnot]; [assumption|].
    apply binary_operation_None in Hnot. congruence.
  - intros ->. vm_compute in Hn. injection Hn as <-.
    rewrite instructions_HLT in Hd. discriminate.
Qed.

(** The routine part of a cycle, before [move_PC], on a returning cycle. *)
Lemma cycle_Normal_inv s s' :
  cycle s = Normal tt s' ->
  exists IR a b s2,
    py_getitem (ram s) (PC s) = Some IR /\
    let s1 := mkCPU (ram s) (reg s) (Some a) (Some b) (PC s) (Some (PC s + 2)) (Some b)
                    (FL s) (out s) in
    move_PC IR s2 = Normal tt s' /\
    ((alu_test IR = 1 /\ IR ∈ [160; 161; 162; 167] /\ ALU IR a b s1 = Normal tt s2)
     \/ (alu_test IR = 0 /\ IR ∈ opcode_keys /\ IR <> 1 /\ dispatch IR s1 = Normal tt s2)).
Proof.
  intros Hc. destruct (fetch s) as [IR s1|e s1] eqn:Hf.
  2: { rewrite (cycle_fetch_fail _ _ _ Hf) in Hc. discriminate. }
  rewrite (cycle_fetch _ _ _ Hf) in Hc.
  apply fetch_Normal_inv in Hf as (a & b & H0 & _ & _ & ->).
  exists IR, a, b.
  destruct (alu_test_range IR) as [Ht|Ht].
  - rewrite execute_table_branch in Hc by (rewrite Ht; discriminate).
    apply bind_Normal_inv in Hc as ([] & s2 & Hd & Hm).
    exists s2. split; [exact H0|]. cbn. split; [exact Hm|]. right.
    destruct (dispatch_Normal_in_table _ _ _ Hd). auto.
  - erewrite execute_alu_branch in Hc by (cbn; first [reflexivity | assumption]).
    apply bind_Normal_inv in Hc as ([] & s2 & Ha & Hm).
    exists s2. split; [exact H0|]. cbn. split; [exact Hm|]. left.
    split; [exact Ht|]. split; [|exact Ha].
    destruct (decide (IR = 160)) as [->|N0]; [set_solver|].
    destruct (decide (IR = 161)) as [->|N1]; [set_solver|].
    destruct (decide (IR = 162)) as [->|N2]; [set_solver|].
    destruct (decide (IR = 167)) as [->|N7]; [set_solver|].
    rewrite ALU_other in Ha by assumption. discriminate.
Qed.

End Returning.

(** X8. A cycle returns normally only on thirteen opcodes: the branch
    table without HLT, and ADD, SUB, MUL, CMP.  On every other content of the
    opcode cell the cycle raises. *)
Theorem cycle_returns_only_on_implemented_opcodes s s' :
  cycle s = Normal tt s' ->
  exists IR, py_getitem (ram s) (PC s) = Some IR /\ IR ∈ returning_opcodes.
Proof.
  intros Hc. apply cycle_Normal_inv in Hc as (IR & a & b & s2 & H0 & _ & Hcase).
  exists IR. split; [exact H0|]. unfold returning_opcodes, opcode_keys in *.
  destruct Hcase as [(_ & Hin & _)|(_ & Hin & N1 & _)].
  - rewrite !elem_of_cons in Hin. rewrite !elem_of_cons. tauto.
  - rewrite !elem_of_cons in Hin. rewrite !elem_of_cons. tauto.
Qed.

Lemma cycle_returns_only_on_implemented_opcodes_witness :
  cycle state_cmp = Normal tt (final (cycle state_cmp)) /\
  exists IR, py_getitem (ram state_cmp) (PC state_cmp) = Some IR /\ IR ∈ returning_opcodes.
Proof.
  split; [vm_compute; reflexivity|].
  apply (cycle_returns_only_on_implemented_opcodes state_cmp (final (cycle state_cmp))).
  vm_compute. reflexivity.
Defined.

(** X9. On a cycle that returns, either the opcode is one of the five
    whose routine assigns PC (CALL, RET, JMP, JEQ, JNE), or PC has moved by
    one plus the operand count held in the two top bits of the opcode. *)
Theorem returning_cycle_advances_PC s s' IR :
  py_getitem (ram s) (PC s) = Some IR ->
  cycle s = Normal tt s' ->
  IR ∈ jump_opcodes \/ PC s' = PC s + (Z.shiftr IR 6 + 1).
Proof.
  intros H0 Hc. apply cycle_Normal_inv in Hc as (IR' & a & b & s2 & H0' & Hm & Hcase).
  assert (IR' = IR) as -> by congruence. cbn in Hcase.
  unfold jump_opcodes, opcode_keys in *.
  destruct Hcase as [(Ht & Hin & Ha)|(Ht & Hin & N1 & Hd)].
  - right.
    assert (respects (fun _ => True) (fun x y => PC y = PC x) (fun _ => True) (ALU IR a b))
      as Hr by (apply respects_ALU; try frame_premise; intros; congruence).
    match type of Ha with
    | ALU _ _ _ ?s1 = _ => pose proof (respects_final _ _ _ _ s1 Hr I) as Hpc
    end.
    rewrite Ha in Hpc. cbn in Hpc.
    assert (sets_pc_test IR = 0) as Hs.
    { rewrite !elem_of_cons in Hin.
      destruct Hin as [->|[->|[->|[->|Hin]]]]; try reflexivity. by apply elem_of_nil in Hin. }
    rewrite (move_PC_advance _ _ Hs) in Hm. injection Hm as <-. cbn. by rewrite Hpc.
  - destruct (decide (IR ∈ [80; 17; 84; 85; 86])) as [Hj|Hj]; [by left|right].
    rewrite !not_elem_of_cons in Hj.
    assert (respects (fun _ => True) (fun x y => PC y = PC x) (fun _ => True) (dispatch IR))
      as Hr.
    { apply respects_dispatch; try frame_premise. intros; congruence. }
    match type of Hd with
    | dispatch _ ?s1 = _ => pose proof (respects_final _ _ _ _ s1 Hr I) as Hpc
    end.
    rewrite Hd in Hpc. cbn in Hpc.
    assert (sets_pc_test IR = 0) as Hs.
    { rewrite !elem_of_cons in Hin.
      destruct Hin as [->|[->|[->|[->|[->|[->|[->|[->|[->|[->|Hin]]]]]]]]]];
        try reflexivity; try (exfalso; tauto); by apply elem_of_nil in Hin. }
    rewrite (move_PC_advance _ _ Hs) in Hm. injection Hm as <-. cbn. by rewrite Hpc.
Qed.

Lemma returning_cycle_advances_PC_witness :
  (py_getitem (ram state_cmp) (PC state_cmp) = Some 167 /\
   cycle state_cmp = Normal tt (final (cycle state_cmp))) /\
  (167 ∈ jump_opcodes \/
   PC (final (cycle state_cmp)) = PC state_cmp + (Z.shiftr 167 6 + 1)).
Proof.
  split; [split; vm_compute; reflexivity|].
  apply (returning_cycle_advances_PC state_cmp (final (cycle state_cmp)) 167);
    vm_compute; reflexivity.
Defined.

(** * Invariants along a run *)

(** X10. Memory keeps its 256 cells and the register file its 8 slots
    through any number of cycles, whether the last one returned or raised. *)
Theorem cycles_keep_wf n s : wf s -> wf (final (cycles n s)).
Proof.
  revert s. induction n as [|n IH]; intros s Hwf; cbn; [exact Hwf|].
  pose proof (keeps_cycle s) as K.
  destruct (cycle s) as [[] s1|e s1] eqn:Hc.
  - apply IH. by eapply cycle_wf.
  - cbn. destruct Hwf, K. split; congruence.
Qed.

Lemma cycles_keep_wf_witness :
  wf (with_program prog_cmp_jne CPU__init__) /\
  wf (final (cycles 7 (with_program prog_cmp_jne CPU__init__))).
Proof.
  split; [split; reflexivity|].
  apply (cycles_keep_wf 7 (with_program prog_cmp_jne CPU__init__)). split; reflexivity.
Defined.

(** * Single instructions, as cycles *)

(** X11. A cycle at opcode HLT whose two following cells exist ends [run]
    with [SystemExit] carrying no status (exit code 0), whatever fuel is
    left; memory, registers, PC, flags and output are as before. *)
Theorem HLT_ends_run s fuel :
  py_getitem (ram s) (PC s) = Some 1 ->
  is_Some (py_getitem (ram s) (PC s + 1)) ->
  is_Some (py_getitem (ram s) (PC s + 2)) ->
  exists s', run (S fuel) s = Some (SystemExit None, s') /\ same_core s s'.
Proof.
  intros H0 [a H1] [b H2]. eexists. split.
  - apply run_Raise. apply cycle_HLT. by apply fetch_ok.
  - by unfold same_core.
Qed.

Lemma HLT_ends_run_witness :
  (py_getitem (ram state_hlt) (PC state_hlt) = Some 1 /\
   is_Some (py_getitem (ram state_hlt) (PC state_hlt + 1)) /\
   is_Some (py_getitem (ram state_hlt) (PC state_hlt + 2))) /\
  exists s', run 3 state_hlt = Some (SystemExit None, s') /\ same_core state_hlt s'.
Proof.
  split; [repeat split; by eexists|].
  apply (HLT_ends_run state_hlt 2); [reflexivity | by eexists | by eexists].
Defined.

(** X12. A cycle at opcode JMP with a valid register operand returns with
    PC equal to that register's value (no advance is added); memory,
    registers, flags and output are as before. *)
Theorem JMP_cycle s r target :
  py_getitem (ram s) (PC s) = Some 84 ->
  py_getitem (ram s) (PC s + 1) = Some r ->
  is_Some (py_getitem (ram s) (PC s + 2)) ->
  py_getitem (reg s) r = Some target ->
  exists s', cycle s = Normal tt s'
    /\ PC s' = target
    /\ ram s' = ram s /\ reg s' = reg s /\ FL s' = FL s /\ out s' = out s.
Proof.
  intros H0 H1 [b H2] Hr.
  rewrite (cycle_JMP _ _ (fetch_ok s 84 r b H0 H1 H2)).
  unfold JMP. step_with get_operand_ok. step_with reg_get_ok.
  eexists. split; [reflexivity|]. cbn. auto.
Qed.

Lemma JMP_cycle_witness :
  (py_getitem (ram state_jmp) (PC state_jmp) = Some 84 /\
   py_getitem (ram state_jmp) (PC state_jmp + 1) = Some 0 /\
   is_Some (py_getitem (ram state_jmp) (PC state_jmp + 2)) /\
   py_getitem (reg state_jmp) 0 = Some 20) /\
  exists s', cycle state_jmp = Normal tt s'
    /\ PC s' = 20
    /\ ram s' = ram state_jmp /\ reg s' = reg state_jmp
    /\ FL s' = FL state_jmp /\ out s' = out state_jmp.
Proof.
  split; [repeat split; by eexists|].
  apply (JMP_cycle state_jmp 0 20); [reflexivity | reflexivity | by eexists | reflexivity].
Defined.

(** * Memory accessors *)

(** X13. [ram_write] then [ram_read] at the same valid address gives back
    the value written and leaves the address and the value in the
    memory-address and memory-data attributes; every cell in another slot is
    as before. *)
Theorem ram_write_then_read s value address :
  - Z.of_nat (length (ram s)) <= address < Z.of_nat (length (ram s)) ->
  exists s1 s2,
    ram_write value address s = Normal tt s1
    /\ ram_read address s1 = Normal value s2
    /\ MAR s2 = Some address /\ MDR s2 = Some value
    /\ forall j, py_index (Z.of_nat (length (ram s))) j
                 <> py_index (Z.of_nat (length (ram s))) address ->
                 py_getitem (ram s2) j = py_getitem (ram s) j.
Proof.
  intros Hin.
  destruct (py_setitem_is_Some (ram s) address value Hin) as [m1 Hm1].
  pose proof (py_setitem_getitem _ _ _ _ Hm1) as [Hget _].
  eexists _, _. split; [|split].
  - unfold ram_write.
    erewrite bind_Normal by reflexivity. cbn beta.
    erewrite bind_Normal by reflexivity. cbn beta.
    erewrite ram_set_ok by (cbn; exact Hm1). reflexivity.
  - apply ram_read_ok. exact Hget.
  - cbn. repeat split. intros j Hj.
    eapply py_setitem_getitem_other; [exact Hm1|]. congruence.
Qed.

Lemma ram_write_then_read_witness :
  (- Z.of_nat (length (ram sample_state)) <= 200 < Z.of_nat (length (ram sample_state))) /\
  exists s1 s2,
    ram_write 77 200 sample_state = Normal tt s1
    /\ ram_read 200 s1 = Normal 77 s2
    /\ MAR s2 = Some 200 /\ MDR s2 = Some 77
    /\ forall j, py_index (Z.of_nat (length (ram sample_state))) j
                 <> py_index (Z.of_nat (length (ram sample_state))) 200 ->
                 py_getitem (ram s2) j = py_getitem (ram sample_state) j.
Proof.
  split; [cbn; lia|].
  apply (ram_write_then_read sample_state 77 200). cbn. lia.
Defined.

(** * Edges of the stack routines *)

(** X14. POP into the stack-pointer register itself: the popped value is
    stored there and then incremented, so the register ends one above the
    value that was on top of the stack. *)
Theorem POP_into_stack_pointer s a sp v :
  length (reg s) = 8%nat ->
  operand_a s = Some a ->
  py_index 8 a = py_index 8 SP ->
  py_getitem (reg s) SP = Some sp ->
  py_getitem (ram s) sp = Some v ->
  exists s', POP s = Normal tt s' /\ py_getitem (reg s') SP = Some (v + 1)
    /\ ram s' = ram s.
Proof.
  intros Hlen Ha Hidx Hsp Hv.
  destruct (py_setitem_is_Some (reg s) SP v) as [r1 Hr1]; [rewrite Hlen; unfold SP; lia|].
  assert (py_setitem (reg s) a v = Some r1) as Hr1a.
  { unfold py_setitem in Hr1 |- *. rewrite Hlen in Hr1 |- *.
    change (Z.of_nat 8) with 8 in Hr1 |- *. rewrite Hidx. exact Hr1. }
  pose proof (py_setitem_getitem _ _ _ _ Hr1) as [Hr1sp Hr1len].
  destruct (py_setitem_is_Some r1 SP (v + 1)) as [r2 Hr2];
    [rewrite Hr1len, Hlen; unfold SP; lia|].
  pose proof (py_setitem_getitem _ _ _ _ Hr2) as [Hr2sp _].
  eexists. split; [by eapply POP_ok|]. cbn. auto.
Qed.

Lemma POP_into_stack_pointer_witness :
  (length (reg state_pop_sp) = 8%nat /\ operand_a state_pop_sp = Some 7 /\
   py_index 8 7 = py_index 8 SP /\ py_getitem (reg state_pop_sp) SP = Some 244 /\
   py_getitem (ram state_pop_sp) 244 = Some 42) /\
  exists s', POP state_pop_sp = Normal tt s' /\ py_getitem (reg s') SP = Some (42 + 1)
    /\ ram s' = ram state_pop_sp.
Proof.
  split; [repeat split|].
  apply (POP_into_stack_pointer state_pop_sp 7 244 42); reflexivity.
Defined.

(** X15. PUSH and CALL decrement the stack pointer before they index
    the memory: when the decremented stack pointer is no index of the memory
    list, both raise [IndexError] with the memory untouched, PC unchanged and
    the stack-pointer register already one less. *)
Theorem PUSH_CALL_out_of_range s a sp :
  length (reg s) = 8%nat ->
  operand_a s = Some a ->
  -8 <= a < 8 ->
  py_getitem (reg s) SP = Some sp ->
  ~ (- Z.of_nat (length (ram s)) <= sp - 1 < Z.of_nat (length (ram s))) ->
  (exists s', PUSH s = Raise IndexError s'
     /\ py_getitem (reg s') SP = Some (sp - 1) /\ ram s' = ram s /\ PC s' = PC s)
  /\ (exists s', CALL s = Raise IndexError s'
        /\ py_getitem (reg s') SP = Some (sp - 1) /\ ram s' = ram s /\ PC s' = PC s).
Proof.
  intros Hlen Ha Hr Hsp Hout.
  destruct (py_setitem_is_Some (reg s) SP (sp - 1)) as [r1 Hr1];
    [rewrite Hlen; unfold SP; lia|].
  pose proof (py_setitem_getitem _ _ _ _ Hr1) as [Hr1sp Hr1len].
  assert (is_Some (py_getitem r1 a)) as [value Hvalue].
  { apply py_getitem_is_Some. rewrite Hr1len, Hlen. lia. }
  assert (forall v, py_setitem (ram s) (sp - 1) v = None) as Hnone.
  { intros v. unfold py_setitem.
    by rewrite (proj2 (py_index_None _ _) Hout). }
  split.
  - eexists. split.
    + unfold PUSH. step_with reg_get_ok. step_with reg_set_ok.
      step_with get_operand_ok. step_with reg_get_ok. step_with reg_get_ok.
      rewrite Hnone. reflexivity.
    + cbn. auto.
  - eexists. split.
    + unfold CALL. step_with reg_get_ok. step_with reg_set_ok.
      step_with reg_get_ok.
      erewrite bind_Raise; [reflexivity|].
      unfold ram_set, bind, get. cbn. rewrite Hnone. reflexivity.
    + cbn. auto.
Qed.

Lemma PUSH_CALL_out_of_range_witness :
  (length (reg state_sp_low) = 8%nat /\ operand_a state_sp_low = Some 0 /\ -8 <= 0 < 8 /\
   py_getitem (reg state_sp_low) SP = Some (-256) /\
   ~ (- Z.of_nat (length (ram state_sp_low)) <= -256 - 1
      < Z.of_nat (length (ram state_sp_low)))) /\
  (exists s', PUSH state_sp_low = Raise IndexError s'
     /\ py_getitem (reg s') SP = Some (-256 - 1) /\ ram s' = ram state_sp_low
     /\ PC s' = PC state_sp_low)
  /\ (exists s', CALL state_sp_low = Raise IndexError s'
        /\ py_getitem (reg s') SP = Some (-256 - 1) /\ ram s' = ram state_sp_low
        /\ PC s' = PC state_sp_low).
Proof.
  split; [repeat split; cbn; lia|].
  apply (PUSH_CALL_out_of_range state_sp_low 0 (-256)); try reflexivity; cbn; lia.
Defined.

(** * Instructions in sequence *)

Section Sequences.

Lemma cycles_S n s s1 :
  cycle s = Normal tt s1 -> cycles (S n) s = cycles n s1.
Proof. intros H. cbn. by rewrite H. Qed.



Lemma cycle_CMP_ok s a b x y :
  py_getitem (ram s) (PC s) = Some 167 ->
  py_getitem (ram s) (PC s + 1) = Some a ->
  py_getitem (ram s) (PC s + 2) = Some b ->
  py_getitem (reg s) a = Some x ->
  py_getitem (reg s) b = Some y ->
  cycle s =
  Normal tt (mkCPU (ram s) (reg s) (Some a) (Some b) (PC s + 3) (Some (PC s + 2)) (Some b)
                   (flags_of_comparison x y)
                   (out s ++ [Print_int (flags_of_comparison x y)])).
Proof.
  intros H0 H1 H2 Hx Hy.
  rewrite (cycle_fetch _ _ _ (fetch_ok s 167 a b H0 H1 H2)).
  erewrite execute_alu_branch by reflexivity.
  erewrite bind_Normal by (eapply ALU_CMP_ok; cbn; first [eassumption | reflexivity]).
  rewrite move_PC_advance by reflexivity. reflexivity.
Qed.

Lemma cycle_JEQ_ok s r b target :
  py_getitem (ram s) (PC s) = Some 85 ->
  py_getitem (ram s) (PC s + 1) = Some r ->
  py_getitem (ram s) (PC s + 2) = Some b ->
  py_getitem (reg s) r = Some target ->
  cycle s =
  Normal tt (mkCPU (ram s) (reg s) (Some r) (Some b)
                   (if bool_decide (FL s = 1) then target else PC s + 2)
                   (Some (PC s + 2)) (Some b) (FL s) (out s)).
Proof.
  intros H0 H1 H2 Hr.
  rewrite (cycle_JEQ _ _ (fetch_ok s 85 r b H0 H1 H2)).
  erewrite JEQ_ok by (cbn; first [eassumption | reflexivity]). reflexivity.
Qed.

End Sequences.



(** X17. CMP of two registers followed by JEQ: both cycles return, the
    comparison's flags value is printed, and PC ends at the value of JEQ's
    register exactly when the two compared values are equal, five further
    otherwise. *)
Theorem CMP_then_JEQ_jumps_iff_equal s a b x y r target :
  py_getitem (ram s) (PC s) = Some 167 ->
  py_getitem (ram s) (PC s + 1) = Some a ->
  py_getitem (ram s) (PC s + 2) = Some b ->
  py_getitem (ram s) (PC s + 3) = Some 85 ->
  py_getitem (ram s) (PC s + 4) = Some r ->
  is_Some (py_getitem (ram s) (PC s + 5)) ->
  py_getitem (reg s) a = Some x ->
  py_getitem (reg s) b = Some y ->
  py_getitem (reg s) r = Some target ->
  exists s2, cycles 2 s = Normal tt s2
    /\ PC s2 = (if bool_decide (x = y) then target else PC s + 5)
    /\ out s2 = out s ++ [Print_int (flags_of_comparison x y)]
    /\ reg s2 = reg s /\ ram s2 = ram s.
Proof.
  intros H0 H1 H2 H3 H4 [c H5] Hx Hy Hr.
  rewrite (cycles_S _ _ _ (cycle_CMP_ok s a b x y H0 H1 H2 Hx Hy)).
  erewrite cycles_S.
  2: { apply (cycle_JEQ_ok _ r c target); cbn; try assumption.
       - by replace (PC s + 3 + 1) with (PC s + 4) by lia.
       - by replace (PC s + 3 + 2) with (PC s + 5) by lia. }
  eexists. split; [reflexivity|]. cbn. repeat split.
  unfold flags_of_comparison. repeat case_bool_decide; try reflexivity; try lia.
Qed.

Lemma CMP_then_JEQ_jumps_iff_equal_witness :
  (py_getitem (ram state_cmp_jeq) (PC state_cmp_jeq) = Some 167 /\
   py_getitem (ram state_cmp_jeq) (PC state_cmp_jeq + 1) = Some 0 /\
   py_getitem (ram state_cmp_jeq) (PC state_cmp_jeq + 2) = Some 1 /\
   py_getitem (ram state_cmp_jeq) (PC state_cmp_jeq + 3) = Some 85 /\
   py_getitem (ram state_cmp_jeq) (PC state_cmp_jeq + 4) = Some 2 /\
   is_Some (py_getitem (ram state_cmp_jeq) (PC state_cmp_jeq + 5)) /\
   py_getitem (reg state_cmp_jeq) 0 = Some 9 /\
   py_getitem (reg state_cmp_jeq) 1 = Some 9 /\
   py_getitem (reg state_cmp_jeq) 2 = Some 40) /\
  exists s2, cycles 2 state_cmp_jeq = Normal tt s2
    /\ PC s2 = (if bool_decide (9 = 9) then 40 else PC state_cmp_jeq + 5)
    /\ out s2 = out state_cmp_jeq ++ [Print_int (flags_of_comparison 9 9)]
    /\ reg s2 = reg state_cmp_jeq /\ ram s2 = ram state_cmp_jeq.
Proof.
  split; [repeat split; by eexists|].
  apply (CMP_then_JEQ_jumps_iff_equal state_cmp_jeq 0 1 9 9 2 40);
    try reflexivity; by eexists.
Defined.

Section StackSequences.

Lemma cycle_PUSH_ok s a b sp r1 value m1 :
  py_getitem (ram s) (PC s) = Some 69 ->
  py_getitem (ram s) (PC s + 1) = Some a ->
  py_getitem (ram s) (PC s + 2) = Some b ->
  py_getitem (reg s) SP = Some sp ->
  py_setitem (reg s) SP (sp - 1) = Some r1 ->
  py_getitem r1 a = Some value ->
  py_setitem (ram s) (sp - 1) value = Some m1 ->
  cycle s =
  Normal tt (mkCPU m1 r1 (Some a) (Some b) (PC s + 2) (Some (PC s + 2)) (Some b)
                   (FL s) (out s)).
Proof.
  intros H0 H1 H2 Hsp Hr1 Hv Hm1.
  rewrite (cycle_PUSH _ _ (fetch_ok s 69 a b H0 H1 H2)).
  erewrite bind_Normal by (eapply PUSH_ok; cbn; first [eassumption | reflexivity]).
  rewrite move_PC_advance by reflexivity. reflexivity.
Qed.

Lemma cycle_POP_ok s a b sp value r1 sp1 r2 :
  py_getitem (ram s) (PC s) = Some 70 ->
  py_getitem (ram s) (PC s + 1) = Some a ->
  py_getitem (ram s) (PC s + 2) = Some b ->
  py_getitem (reg s) SP = Some sp ->
  py_getitem (ram s) sp = Some value ->
  py_setitem (reg s) a value = Some r1 ->
  py_getitem r1 SP = Some sp1 ->
  py_setitem r1 SP (sp1 + 1) = Some r2 ->
  cycle s =
  Normal tt (mkCPU (ram s) r2 (Some a) (Some b) (PC s + 2) (Some (PC s + 2)) (Some b)
                   (FL s) (out s)).
Proof.
  intros H0 H1 H2 Hsp Hv Hr1 Hsp1 Hr2.
  rewrite (cycle_POP _ _ (fetch_ok s 70 a b H0 H1 H2)).
  erewrite bind_Normal by (eapply POP_ok; cbn; first [eassumption | reflexivity]).
  rewrite move_PC_advance by reflexivity. reflexivity.
Qed.

End StackSequences.

(** X18. PUSH of one register followed by POP into another, neither being
    the stack pointer, with the pushed cell clear of the POP instruction's own
    two bytes: both cycles return, the second register holds the first one's
    value, the stack pointer is back where it was, the value is still in the
    memory cell below it, and PC is four further. *)
Theorem PUSH_then_POP_copies_register s r1 r2 x sp :
  wf s ->
  py_getitem (ram s) (PC s) = Some 69 ->
  py_getitem (ram s) (PC s + 1) = Some r1 ->
  py_getitem (ram s) (PC s + 2) = Some 70 ->
  py_getitem (ram s) (PC s + 3) = Some r2 ->
  is_Some (py_getitem (ram s) (PC s + 4)) ->
  py_getitem (reg s) SP = Some sp ->
  py_getitem (reg s) r1 = Some x ->
  -8 <= r2 < 8 ->
  py_index 8 r1 <> py_index 8 SP ->
  py_index 8 r2 <> py_index 8 SP ->
  -256 <= sp - 1 < 256 ->
  py_index 256 (sp - 1) <> py_index 256 (PC s + 2) ->
  py_index 256 (sp - 1) <> py_index 256 (PC s + 3) ->
  exists s2, cycles 2 s = Normal tt s2
    /\ py_getitem (reg s2) r2 = Some x
    /\ py_getitem (reg s2) SP = Some sp
    /\ py_getitem (ram s2) (sp - 1) = Some x
    /\ PC s2 = PC s + 4.
Proof.
  intros [Hram Hreg] H0 H1 H2 H3 H4 Hsp Hx Hr2 Hn1 Hn2 Hin Hc2 Hc3.
  assert (Z.of_nat (length (ram s)) = 256) as Lram by (rewrite Hram; reflexivity).
  assert (Z.of_nat (length (reg s)) = 8) as Lreg by (rewrite Hreg; reflexivity).
  destruct (py_setitem_is_Some (reg s) SP (sp - 1)) as [ra Hra];
    [rewrite Lreg; unfold SP; lia|].
  pose proof (py_setitem_getitem _ _ _ _ Hra) as [Hra_sp Hra_len].
  assert (py_getitem ra r1 = Some x) as Hra_r1.
  { rewrite <- Hx. eapply py_setitem_getitem_other; [exact Hra|].
    rewrite Lreg. congruence. }
  destruct (py_setitem_is_Some (ram s) (sp - 1) x) as [m1 Hm1]; [rewrite Lram; lia|].
  pose proof (py_setitem_getitem _ _ _ _ Hm1) as [Hm1_sp Hm1_len].
  destruct H4 as [c H4].
  rewrite (cycles_S _ _ _ (cycle_PUSH_ok s r1 70 sp ra x m1 H0 H1 H2 Hsp Hra Hra_r1 Hm1)).
  destruct (py_setitem_is_Some ra r2 x) as [rb Hrb]; [rewrite Hra_len, Lreg; lia|].
  pose proof (py_setitem_getitem _ _ _ _ Hrb) as [Hrb_r2 Hrb_len].
  assert (py_getitem rb SP = Some (sp - 1)) as Hrb_sp.
  { rewrite <- Hra_sp. eapply py_setitem_getitem_other; [exact Hrb|].
    rewrite Hra_len, Lreg. exact Hn2. }
  destruct (py_setitem_is_Some rb SP (sp - 1 + 1)) as [rc Hrc];
    [rewrite Hrb_len, Hra_len, Lreg; unfold SP; lia|].
  pose proof (py_setitem_getitem _ _ _ _ Hrc) as [Hrc_sp _].
  assert (py_getitem rc r2 = Some x) as Hrc_r2.
  { rewrite <- Hrb_r2. eapply py_setitem_getitem_other; [exact Hrc|].
    rewrite Hrb_len, Hra_len, Lreg. congruence. }
  assert (is_Some (py_getitem m1 (PC s + 4))) as [c' H4'].
  { apply py_getitem_is_Some. rewrite Hm1_len.
    apply py_getitem_is_Some. eauto. }
  erewrite cycles_S.
  2: { apply (cycle_POP_ok _ r2 c' (sp - 1) x rb (sp - 1) rc); cbn; try assumption.
       - rewrite <- H2. eapply py_setitem_getitem_other; [exact Hm1|].
         rewrite Lram. exact Hc2.
       - replace (PC s + 2 + 1) with (PC s + 3) by lia.
         rewrite <- H3. eapply py_setitem_getitem_other; [exact Hm1|].
         rewrite Lram. exact Hc3.
       - by replace (PC s + 2 + 2) with (PC s + 4) by lia. }
  eexists. split; [reflexivity|]. cbn. repeat split; try assumption.
  - rewrite Hrc_sp. f_equal. lia.
  - lia.
Qed.

Lemma PUSH_then_POP_copies_register_witness :
  (wf state_push_pop /\
   py_getitem (ram state_push_pop) (PC state_push_pop) = Some 69 /\
   py_getitem (ram state_push_pop) (PC state_push_pop + 1) = Some 0 /\
   py_getitem (ram state_push_pop) (PC state_push_pop + 2) = Some 70 /\
   py_getitem (ram state_push_pop) (PC state_push_pop + 3) = Some 1 /\
   is_Some (py_getitem (ram state_push_pop) (PC state_push_pop + 4)) /\
   py_getitem (reg state_push_pop) SP = Some 244 /\
   py_getitem (reg state_push_pop) 0 = Some 5) /\
  exists s2, cycles 2 state_push_pop = Normal tt s2
    /\ py_getitem (reg s2) 1 = Some 5
    /\ py_getitem (reg s2) SP = Some 244
    /\ py_getitem (ram s2) (244 - 1) = Some 5
    /\ PC s2 = PC state_push_pop + 4.
Proof.
  split; [repeat split; by eexists|].
  apply (PUSH_then_POP_copies_register state_push_pop 0 1 5 244);
    try reflexivity; try (by eexists); try lia; try discriminate.
Defined.

(** * Tracing *)

Section Tracing.

(** The loop over the register indices: one event per index, in order. *)
Lemma trace_regs_ok idxs : forall vals s,
  Forall2 (fun i v => py_getitem (reg s) i = Some v) idxs vals ->
  trace_regs idxs s =
  Normal tt (mkCPU (ram s) (reg s) (operand_a s) (operand_b s) (PC s) (MAR s) (MDR s) (FL s)
                   (out s ++ (Print_trace_reg <$> vals))).
Proof.
  induction idxs as [|i rest IH]; intros vals s HF.
  - apply Forall2_nil_inv_l in HF as ->. cbn. rewrite app_nil_r. by destruct s.
  - apply Forall2_cons_inv_l in HF as (v & vals' & Hv & HF & ->).
    cbn [trace_regs].
    erewrite bind_Normal by (apply reg_get_ok; exact Hv). cbn beta.
    erewrite bind_Normal by reflexivity. cbn beta.
    rewrite (IH vals') by exact HF.
    cbn [ram reg operand_a operand_b PC MAR MDR FL out fmap list_fmap].
    by rewrite <- app_assoc.
Qed.

(** With eight registers, the indices 0..7 name the eight slots in order. *)
Lemma trace_regs_all s :
  length (reg s) = 8%nat ->
  Forall2 (fun i v => py_getitem (reg s) i = Some v) (seqZ 0 8) (reg s).
Proof.
  intros Hlen.
  destruct (reg s) as [|r0 [|r1 [|r2 [|r3 [|r4 [|r5 [|r6 [|r7 [|]]]]]]]]];
    try discriminate Hlen.
  repeat constructor.
Qed.

End Tracing.

(** X19. With eight registers and the three cells at PC readable,
    [trace] returns after appending nine events to the output: the header
    with PC and the three cells, then the eight registers in order; memory,
    registers, PC and flags are unchanged. *)
Theorem trace_prints_state s b0 b1 b2 :
  length (reg s) = 8%nat ->
  py_getitem (ram s) (PC s) = Some b0 ->
  py_getitem (ram s) (PC s + 1) = Some b1 ->
  py_getitem (ram s) (PC s + 2) = Some b2 ->
  exists s', trace s = Normal tt s'
    /\ out s' = out s ++ Print_trace_head (PC s) b0 b1 b2 :: (Print_trace_reg <$> reg s)
    /\ ram s' = ram s /\ reg s' = reg s /\ PC s' = PC s /\ FL s' = FL s.
Proof.
  intros Hlen H0 H1 H2.
  unfold trace. erewrite bind_Normal by reflexivity. cbn beta.
  erewrite bind_Normal by (apply ram_read_ok; exact H0). cbn beta.
  erewrite bind_Normal by reflexivity. cbn beta.
  erewrite bind_Normal by (apply ram_read_ok; exact H1). cbn beta.
  erewrite bind_Normal by reflexivity. cbn beta.
  erewrite bind_Normal by (apply ram_read_ok; exact H2). cbn beta.
  erewrite bind_Normal by reflexivity. cbn beta.
  erewrite trace_regs_ok by (apply trace_regs_all; exact Hlen).
  eexists. split; [reflexivity|]. cbn [out ram reg PC FL].
  rewrite <- app_assoc. auto.
Qed.

Lemma trace_prints_state_witness :
  (length (reg state_cmp) = 8%nat /\
   py_getitem (ram state_cmp) (PC state_cmp) = Some 167 /\
   py_getitem (ram state_cmp) (PC state_cmp + 1) = Some 0 /\
   py_getitem (ram state_cmp) (PC state_cmp + 2) = Some 1) /\
  exists s', trace state_cmp = Normal tt s'
    /\ out s' = out state_cmp
                ++ Print_trace_head (PC state_cmp) 167 0 1 :: (Print_trace_reg <$> reg state_cmp)
    /\ ram s' = ram state_cmp /\ reg s' = reg state_cmp
    /\ PC s' = PC state_cmp /\ FL s' = FL state_cmp.
Proof.
  split; [repeat split|].
  apply (trace_prints_state state_cmp 167 0 1); reflexivity.
Defined.

(** * Loading a program *)

Section LoadProofs.

Variable strip : string -> string.
Variable before_hash : string -> string.
Variable int2 : string -> option Z.

Local Abbreviation load_loop' := (load_loop strip before_hash int2).
Local Abbreviation values_of' := (values_of strip before_hash int2).

Lemma with_ram_id s : with_ram (ram s) s = s.
Proof. by destruct s. Qed.

Lemma with_ram_twice m m' s : with_ram m (with_ram m' s) = with_ram m s.
Proof. reflexivity. Qed.

Lemma ram_set_nat k num s :
  (k < length (ram s))%nat ->
  ram_set (Z.of_nat k) num s = Normal tt (with_ram (<[k:=num]> (ram s)) s).
Proof.
  intros Hk. apply ram_set_ok. unfold py_setitem.
  rewrite py_index_nonneg by lia. cbn. by rewrite Nat2Z.id.
Qed.

Lemma ram_set_nat_fail k num s :
  (length (ram s) <= k)%nat -> ram_set (Z.of_nat k) num s = Raise IndexError s.
Proof.
  intros Hk. unfold ram_set, bind, get, py_setitem.
  rewrite (proj2 (py_index_None _ _)) by lia. reflexivity.
Qed.

(** The loop over a prefix of the file whose values fit: afterwards the
    counter has advanced by their number and they sit in consecutive cells. *)
Lemma load_loop_app l1 l2 : forall (k : nat) s nums,
  values_of' l1 = Some nums ->
  (k + length nums <= length (ram s))%nat ->
  load_loop' (l1 ++ l2) (Z.of_nat k) s =
  load_loop' l2 (Z.of_nat (k + length nums))
             (with_ram (take k (ram s) ++ nums ++ drop (k + length nums) (ram s)) s).
Proof.
  induction l1 as [|instruction rest IH]; intros k s nums Hv Hfit;
    cbn [values_of load_loop app] in Hv |- *.
  - injection Hv as <-. cbn [length app]. rewrite Nat.add_0_r, take_drop, with_ram_id.
    reflexivity.
  - case_bool_decide as Hblank; [by apply IH|].
    destruct (int2 _) as [num|]; [|discriminate].
    destruct (values_of' rest) as [nums'|] eqn:Hrest; [|discriminate].
    injection Hv as <-. cbn in Hfit.
    rewrite ram_set_nat by lia.
    replace (Z.of_nat k + 1) with (Z.of_nat (S k)) by lia.
    rewrite (IH (S k) _ nums' eq_refl) by (cbn; rewrite length_insert; lia).
    replace (k + length (num :: nums'))%nat with (S k + length nums')%nat
      by (cbn [length]; lia).
    rewrite with_ram_twice. cbn [ram with_ram]. do 2 f_equal.
    rewrite (take_S_r _ _ num) by (apply list_lookup_insert_eq; lia).
    rewrite take_insert_ge by lia. rewrite drop_insert_lt by lia.
    by rewrite <- app_assoc.
Qed.

(** The loop when the values run past the end of memory: every cell has been
    overwritten by then. *)
Lemma load_loop_overflow lines : forall (k : nat) s nums,
  values_of' lines = Some nums ->
  (k <= length (ram s))%nat ->
  (length (ram s) < k + length nums)%nat ->
  load_loop' lines (Z.of_nat k) s =
  Load_error Load_IndexError
             (with_ram (take k (ram s) ++ take (length (ram s) - k) nums) s).
Proof.
  induction lines as [|instruction rest IH]; intros k s nums Hv Hk Hover;
    cbn [values_of load_loop] in Hv |- *.
  - injection Hv as <-. cbn in Hover. lia.
  - case_bool_decide as Hblank; [by apply IH|].
    destruct (int2 _) as [num|]; [|discriminate].
    destruct (values_of' rest) as [nums'|] eqn:Hrest; [|discriminate].
    injection Hv as <-. cbn in Hover.
    destruct (decide (k = length (ram s))) as [->|Hne].
    + rewrite ram_set_nat_fail by lia. f_equal.
      rewrite Nat.sub_diag, take_ge by lia. cbn. rewrite app_nil_r.
      by rewrite with_ram_id.
    + rewrite ram_set_nat by lia.
      replace (Z.of_nat k + 1) with (Z.of_nat (S k)) by lia.
      rewrite (IH (S k) _ nums' eq_refl) by (cbn; rewrite length_insert; lia).
      f_equal. unfold with_ram; cbn. f_equal. rewrite length_insert.
      rewrite (take_S_r _ _ num) by (apply list_lookup_insert_eq; lia).
      rewrite take_insert_ge by lia.
      replace (length (ram s) - k)%nat with (S (length (ram s) - S k)) by lia.
      cbn. by rewrite <- app_assoc.
Qed.

End LoadProofs.

(** X20. With two command-line words and a file that opens, whose lines
    are all blank, comment-only or numbers, at most as many numbers as
    memory has cells: [load] returns with the numbers in consecutive cells
    from address 0, in file order, and every later cell as it was (memory is
    not cleared); nothing else changes. *)
Theorem load_stores_values_in_order strip before_hash int2 argv open_file name lines nums s :
  length argv = 2%nat ->
  argv !! 1%nat = Some name ->
  open_file name = Opened lines ->
  values_of strip before_hash int2 lines = Some nums ->
  (length nums <= length (ram s))%nat ->
  load strip before_hash int2 argv open_file s =
  Load_ok (with_ram (nums ++ drop (length nums) (ram s)) s).
Proof.
  intros Hargc Hname Hopen Hv Hfit. unfold load.
  rewrite bool_decide_eq_false_2 by (rewrite Hargc; auto). rewrite Hname, Hopen.
  pose proof (load_loop_app strip before_hash int2 lines [] 0 s nums Hv Hfit) as H.
  rewrite app_nil_r in H. cbn in H. exact H.
Qed.

Lemma load_stores_values_in_order_witness :
  (values_of id demo_before_hash demo_int2 demo_file = Some [130; 0]) /\
  load id demo_before_hash demo_int2 ["ls8.py"; "prog.ls8"] (fun _ => Opened demo_file)
       CPU__init__
  = Load_ok (with_ram ([130; 0] ++ drop (length [130; 0]) (ram CPU__init__)) CPU__init__).
Proof.
  split; [reflexivity|].
  apply (load_stores_values_in_order id demo_before_hash demo_int2
           ["ls8.py"; "prog.ls8"] (fun _ => Opened demo_file) "prog.ls8" demo_file [130; 0]);
    try reflexivity.
  cbn. lia.
Defined.

(** X21. A file holding more numbers than memory has cells makes
    [load] end with [IndexError], which it does not catch; by then every
    cell holds one of the first numbers of the file, in order. *)
Theorem load_overflow_raises_IndexError strip before_hash int2 argv open_file name lines
    nums s :
  length argv = 2%nat ->
  argv !! 1%nat = Some name ->
  open_file name = Opened lines ->
  values_of strip before_hash int2 lines = Some nums ->
  (length (ram s) < length nums)%nat ->
  load strip before_hash int2 argv open_file s =
  Load_error Load_IndexError (with_ram (take (length (ram s)) nums) s).
Proof.
  intros Hargc Hname Hopen Hv Hover. unfold load.
  rewrite bool_decide_eq_false_2 by (rewrite Hargc; auto). rewrite Hname, Hopen.
  pose proof (load_loop_overflow strip before_hash int2 lines 0 s nums Hv) as H.
  cbn in H. rewrite Nat.sub_0_r in H. apply H; lia.
Qed.

Lemma load_overflow_raises_IndexError_witness :
  (values_of id demo_before_hash demo_int2 demo_file_long = Some [1; 2; 3]) /\
  load id demo_before_hash demo_int2 ["ls8.py"; "prog.ls8"] (fun _ => Opened demo_file_long)
       state_two_cells
  = Load_error Load_IndexError
               (with_ram (take (length (ram state_two_cells)) [1; 2; 3]) state_two_cells).
Proof.
  split; [reflexivity|].
  apply (load_overflow_raises_IndexError id demo_before_hash demo_int2
           ["ls8.py"; "prog.ls8"] (fun _ => Opened demo_file_long) "prog.ls8"
           demo_file_long [1; 2; 3]);
    try reflexivity.
  cbn. lia.
Defined.

(** X22. A line that is not blank and that [int] rejects makes [load]
    end with [ValueError], which it does not catch; the numbers of the lines
    before it are already stored from address 0, so memory is left partly
    loaded. *)
Theorem load_bad_line_raises_ValueError strip before_hash int2 argv open_file name
    before bad after nums s :
  length argv = 2%nat ->
  argv !! 1%nat = Some name ->
  open_file name = Opened (before ++ bad :: after) ->
  values_of strip before_hash int2 before = Some nums ->
  (length nums <= length (ram s))%nat ->
  strip (before_hash (strip bad)) <> EmptyString ->
  int2 (strip (before_hash (strip bad))) = None ->
  load strip before_hash int2 argv open_file s =
  Load_error Load_ValueError (with_ram (nums ++ drop (length nums) (ram s)) s).
Proof.
  intros Hargc Hname Hopen Hv Hfit Hnb Hbad. unfold load.
  rewrite bool_decide_eq_false_2 by (rewrite Hargc; auto). rewrite Hname, Hopen.
  pose proof (load_loop_app strip before_hash int2 before (bad :: after) 0 s nums Hv Hfit)
    as H.
  change (Z.of_nat 0) with 0 in H. rewrite H. cbn [load_loop].
  rewrite bool_decide_eq_false_2 by assumption. rewrite Hbad. reflexivity.
Qed.

Lemma load_bad_line_raises_ValueError_witness :
  (values_of id demo_before_hash demo_int2 ["1"] = Some [1] /\
   demo_int2 (id (demo_before_hash (id "2"))) = None) /\
  load id demo_before_hash demo_int2 ["ls8.py"; "prog.ls8"] (fun _ => Opened demo_file_bad)
       CPU__init__
  = Load_error Load_ValueError
               (with_ram ([1] ++ drop (length [1]) (ram CPU__init__)) CPU__init__).
Proof.
  split; [split; reflexivity|].
  apply (load_bad_line_raises_ValueError id demo_before_hash demo_int2
           ["ls8.py"; "prog.ls8"] (fun _ => Opened demo_file_bad) "prog.ls8"
           ["1"] "2" ["11"] [1]);
    try reflexivity; try discriminate.
  cbn. lia.
Defined.
